(** * Eshop shopping cart: [eshop/cart/cart.py]

    A shallow embedding of the session-backed [Cart] class and of the part
    of Python's [decimal] module it relies on, followed by the properties
    of the cart's operations.

    Python objects that are shared (the cart mapping, held by the session
    and by the [Cart] instance) live in a heap and are referred to by
    location.  Line items are held by the mapping only and are stored in
    it by value.  A [dict] is an association list in insertion order.
    Decimals are computed under the default context of the [decimal]
    module, with its 28 digits of precision and its trapped signals.  The
    session is the mapping and the [modified] flag; the catalog is the list
    of its current product records. *)

From Stdlib Require Import ZArith NArith QArith Qpower Lia Ascii String.
From stdpp Require Import gmap strings list pretty.

Local Open Scope Z_scope.

(** ** Exceptions and results *)

(** The exceptions the modelled code can raise. *)
Inductive exn :=
| InvalidOperation   (* decimal.InvalidOperation, ConversionSyntax included *)
| Overflow           (* decimal.Overflow *)
| KeyError (k : string)
| ValueError
| OverflowError.

Inductive result (A : Type) :=
| Ok (a : A)
| Raise (e : exn).
Arguments Ok {A} a.
Arguments Raise {A} e.

Definition rbind {A B} (r : result A) (k : A → result B) : result B :=
  match r with Ok a => k a | Raise e => Raise e end.

#[global] Instance result_ret : MRet result := λ A a, Ok a.
#[global] Instance result_bind : MBind result := λ A B k r, rbind r k.

(** ** Python's [decimal.Decimal] under the default context

    [Context(prec=28, rounding=ROUND_HALF_EVEN, Emin=-999999, Emax=999999,
    capitals=1, clamp=0, traps=[InvalidOperation, DivisionByZero, Overflow])].
    The definitions follow [_pydecimal.py]; signals that are not trapped
    only set context flags and are left out.  [from decimal import Decimal]
    loads the C implementation of the module, which computes the same
    results and whose constructor holds a value only within its internal
    limits ([in_limits] below). *)
Module Decimal.

(** [_sign], [_int], [_exp]; the special values carry ['F'], ['n'], ['N']
    in [_exp].  The coefficient string [_int] has no leading zeros, so it
    is a natural number; the payload of a NaN is empty exactly when 0. *)
Inductive t :=
| Finite (sign : bool) (coeff : N) (exp : Z)
| Infinity (sign : bool)
| NaN (sign : bool) (signaling : bool) (payload : N).

Definition prec : Z := 28.
Definition Emax : Z := 999999.
Definition Emin : Z := -999999.
Definition Etiny : Z := Emin - prec + 1.
Definition Etop : Z := Emax - prec + 1.

(** [len(str(n))] *)
Fixpoint ndigits_go (fuel : nat) (n : N) : Z :=
  match fuel with
  | O => 1
  | S fuel => if (n <? 10)%N then 1 else 1 + ndigits_go fuel (n / 10)%N
  end.

Definition ndigits (n : N) : Z := ndigits_go (S (N.to_nat (N.log2 n))) n.

Definition pow10 (k : Z) : N := Z.to_N (10 ^ k).

(** [Decimal(value)] for an [int] *)
Definition of_int (value : Z) : t :=
  Finite (value <? 0) (Z.abs_N value) 0.

(** *** [Decimal(value)] for a [str] *)

Definition is_space (a : ascii) : bool :=
  let n := nat_of_ascii a in
  ((9 <=? n) && (n <=? 13) || (28 <=? n) && (n <=? 32))%nat.

Definition is_digit (a : ascii) : bool :=
  let n := nat_of_ascii a in ((48 <=? n) && (n <=? 57))%nat.

Definition digit_val (a : ascii) : N := N.of_nat (nat_of_ascii a - 48).

(** ASCII lower-casing, for the [re.IGNORECASE] match *)
Definition lower (a : ascii) : ascii :=
  let n := nat_of_ascii a in
  if ((65 <=? n) && (n <=? 90))%nat then ascii_of_nat (n + 32) else a.

Fixpoint lstrip (s : list ascii) : list ascii :=
  match s with
  | a :: s' => if is_space a then lstrip s' else s
  | [] => []
  end.

(** [str.strip()] *)
Definition strip (s : list ascii) : list ascii :=
  reverse (lstrip (reverse (lstrip s))).

Fixpoint span_digits (s : list ascii) : list ascii * list ascii :=
  match s with
  | a :: s' =>
      if is_digit a then let '(d, r) := span_digits s' in (a :: d, r)
      else ([], s)
  | [] => ([], [])
  end.

(** [int(digits)] for a possibly empty run of digits (empty gives 0) *)
Definition int_of_digits (d : list ascii) : N :=
  foldl (λ acc a, acc * 10 + digit_val a)%N 0%N d.

Definition starts_with (p : string) (s : list ascii) : option (list ascii) :=
  let p := list_ascii_of_string p in
  if decide (take (length p) s = p) then Some (drop (length p) s) else None.

(** The alternatives of [_parser] after the optional sign. *)
Definition parse_exponent (s : list ascii) : option Z :=
  match s with
  | [] => Some 0
  | "e"%char :: s' =>
      let '(neg, s'') :=
        match s' with
        | "-"%char :: r => (true, r)
        | "+"%char :: r => (false, r)
        | _ => (false, s')
        end in
      match span_digits s'' with
      | ((_ :: _) as d, []) =>
          let n := Z.of_N (int_of_digits d) in
          Some (if neg : bool then - n else n)
      | _ => None
      end
  | _ => None
  end.

Definition parse_number (sign : bool) (s : list ascii) : option t :=
  let '(intpart, s1) := span_digits s in
  let '(fracpart, s2, dot) :=
    match s1 with
    | "."%char :: r => let '(f, r') := span_digits r in (f, r', true)
    | _ => ([], s1, false)
    end in
  match intpart, fracpart with
  | [], [] => None
  | _, _ =>
      match parse_exponent s2 with
      | Some exp =>
          Some (Finite sign (int_of_digits (intpart ++ fracpart))
                  (exp - Z.of_nat (length fracpart)))
      | None => None
      end
  end.

Definition parse_special (sign : bool) (s : list ascii) : option t :=
  if decide (s = list_ascii_of_string "inf") then Some (Infinity sign)
  else if decide (s = list_ascii_of_string "infinity") then Some (Infinity sign)
  else
    let '(signal, s1) :=
      match s with
      | "s"%char :: r => (true, r)
      | _ => (false, s)
      end in
    match starts_with "nan" s1 with
    | Some r =>
        match span_digits r with
        | (diag, []) => Some (NaN sign signal (int_of_digits diag))
        | _ => None
        end
    | None => None
    end.

(** The internal limits of the implementation (64-bit): [decimal.MAX_PREC],
    [decimal.MAX_EMAX], [decimal.MIN_EMIN] and [decimal.MIN_ETINY]. *)
Definition MAX_PREC : Z := 999999999999999999.
Definition MAX_EMAX : Z := 999999999999999999.
Definition MIN_EMIN : Z := -999999999999999999.
Definition MIN_ETINY : Z := MIN_EMIN - (MAX_PREC - 1).

(** The values the implementation holds: at most [MAX_PREC] digits, an
    exponent of at least [MIN_ETINY] and an adjusted exponent
    [exp + digits - 1] of at most [MAX_EMAX] (a zero has one digit). *)
Definition in_limits (d : t) : bool :=
  match d with
  | Finite _ coeff exp =>
      (ndigits coeff <=? MAX_PREC) && (MIN_ETINY <=? exp) &&
      (exp + ndigits coeff - 1 <=? MAX_EMAX)
  | Infinity _ => true
  | NaN _ _ payload => ndigits payload <=? MAX_PREC
  end.

(** The constructor converts exactly or not at all: the text is read under
    the widest context, and a result that this context would round or
    clamp is refused with [InvalidOperation]. *)
Definition exact (d : t) : option t := if in_limits d then Some d else None.

(** [Decimal(value)] for a [str]: [None] stands for [InvalidOperation],
    raised under the default context for a text that is no decimal
    ([ConversionSyntax]) and for a value beyond the internal limits.
    Characters outside ASCII are not recognised as digits or spaces. *)
Definition of_string (value : string) : option t :=
  let s := filter (λ a, a ≠ "_"%char) (strip (list_ascii_of_string value)) in
  let s := lower <$> s in
  let '(sign, s) :=
    match s with
    | "-"%char :: r => (true, r)
    | "+"%char :: r => (false, r)
    | _ => (false, s)
    end in
  match parse_number sign s with
  | Some d => exact d
  | None => parse_special sign s ≫= exact
  end.

(** *** [Decimal.__str__] *)

Definition zeros (n : Z) : string := string_of_list_ascii (replicate (Z.to_nat n) "0"%char).

Definition to_string (d : t) : string :=
  match d with
  | Infinity sign => (if sign then "-" else "") +:+ "Infinity"
  | NaN sign signaling payload =>
      (if sign then "-" else "") +:+ (if signaling then "sNaN" else "NaN")
        +:+ (if decide (payload = 0%N) then "" else pretty payload)
  | Finite sign coeff exp =>
      let _int := pretty coeff in
      let len := Z.of_nat (String.length _int) in
      let leftdigits := exp + len in
      let dotplace :=
        if (exp <=? 0) && (-6 <? leftdigits) then leftdigits else 1 in
      let '(intpart, fracpart) :=
        if dotplace <=? 0 then ("0", "." +:+ zeros (- dotplace) +:+ _int)
        else if len <=? dotplace then (_int +:+ zeros (dotplace - len), "")
        else (substring 0 (Z.to_nat dotplace) _int,
              "." +:+ substring (Z.to_nat dotplace) (Z.to_nat (len - dotplace)) _int) in
      let e := leftdigits - dotplace in
      let exp_s :=
        if e =? 0 then ""
        else "E" +:+ (if e <? 0 then "-" else "+") +:+ pretty (Z.abs_N e) in
      (if sign then "-" else "") +:+ intpart +:+ fracpart +:+ exp_s
  end.

(** *** Rounding to the context *)

(** [_fix_nan]: keep the last [prec] digits of the payload. *)
Definition fix_nan (sign signaling : bool) (payload : N) : t :=
  if prec <? ndigits payload then NaN sign signaling (payload mod pow10 prec)
  else NaN sign signaling payload.

(** [ROUND_HALF_EVEN] on a coefficient of which the last [shift] digits are
    dropped: the kept digits, and whether to round up.  [_round_half_even]
    inspects the dropped digits as text; comparing twice the remainder
    with [10^shift] is the same test. *)
Definition round_half_even (coeff : N) (shift : Z) : N * bool :=
  let p := pow10 shift in
  let q := (coeff / p)%N in
  let r := (coeff mod p)%N in
  let up :=
    match (2 * r ?= p)%N with
    | Lt => false
    | Eq => N.odd q
    | Gt => true
    end in
  (q, up).

(** [Decimal._fix] *)
Definition _fix (d : t) : result t :=
  match d with
  | NaN sign signaling payload => Ok (fix_nan sign signaling payload)
  | Infinity sign => Ok d
  | Finite sign coeff exp =>
      if (coeff =? 0)%N then
        Ok (Finite sign 0 (Z.min (Z.max exp Etiny) Emax))
      else
        let exp_min := ndigits coeff + exp - prec in
        if Etop <? exp_min then Raise Overflow
        else
          let exp_min := if exp_min <? Etiny then Etiny else exp_min in
          if exp <? exp_min then
            let digits := ndigits coeff + exp - exp_min in
            let '(q, up) :=
              if digits <? 0 then (0%N, false)
              else round_half_even coeff (exp_min - exp) in
            let '(coeff', exp_min') :=
              if up then
                let c := (q + 1)%N in
                if prec <? ndigits c then ((c / 10)%N, exp_min + 1)
                else (c, exp_min)
              else (q, exp_min) in
            if Etop <? exp_min' then Raise Overflow
            else Ok (Finite sign coeff' exp_min')
          else Ok d
  end.

(** [_rescale(exp, ROUND_HALF_EVEN)] *)
Definition rescale (d : t) (exp : Z) : t :=
  match d with
  | Finite sign coeff e =>
      if (coeff =? 0)%N then Finite sign 0 exp
      else if exp <=? e then Finite sign (coeff * pow10 (e - exp)) exp
      else
        let digits := ndigits coeff + e - exp in
        let '(q, up) :=
          if digits <? 0 then (0%N, false)
          else round_half_even coeff (exp - e) in
        Finite sign (if up then q + 1 else q)%N exp
  | _ => d
  end.

(** [_check_nans]: [Some] when an operand is a NaN. *)
Definition check_nans (self other : t) : option (result t) :=
  match self, other with
  | NaN _ true _, _ => Some (Raise InvalidOperation)
  | _, NaN _ true _ => Some (Raise InvalidOperation)
  | NaN s false p, _ => Some (Ok (fix_nan s false p))
  | _, NaN s false p => Some (Ok (fix_nan s false p))
  | _, _ => None
  end.

(** [_normalize(op1, op2, prec)] on coefficient and exponent pairs *)
Definition normalize (op1 op2 : N * Z) : (N * Z) * (N * Z) :=
  let swap := op1.2 <? op2.2 in
  let tmp := if swap then op2 else op1 in
  let other := if swap then op1 else op2 in
  let exp := tmp.2 + Z.min (-1) (ndigits tmp.1 - prec - 2) in
  let other := if ndigits other.1 + other.2 - 1 <? exp then (1%N, exp) else other in
  let tmp := ((tmp.1 * pow10 (tmp.2 - other.2))%N, other.2) in
  if swap then (other, tmp) else (tmp, other).

(** [Decimal.__add__]; under [ROUND_HALF_EVEN] a zero sum of operands of
    opposite signs is positive, and the sum of two zeros is negative only
    when both are. *)
Definition add (self other : t) : result t :=
  match check_nans self other with
  | Some r => r
  | None =>
      match self, other with
      | Infinity s1, Infinity s2 =>
          if eqb s1 s2 then Ok self else Raise InvalidOperation
      | Infinity _, _ => Ok self
      | _, Infinity _ => Ok other
      | Finite s1 c1 e1, Finite s2 c2 e2 =>
          let exp := Z.min e1 e2 in
          if (c1 =? 0)%N && (c2 =? 0)%N then
            _fix (Finite (s1 && s2) 0 exp)
          else if (c1 =? 0)%N then
            _fix (rescale other (Z.max exp (e2 - prec - 1)))
          else if (c2 =? 0)%N then
            _fix (rescale self (Z.max exp (e1 - prec - 1)))
          else
            let '((i1, x1), (i2, _)) := normalize (c1, e1) (c2, e2) in
            if eqb s1 s2 then _fix (Finite s1 (i1 + i2) x1)
            else if (i1 =? i2)%N then _fix (Finite false 0 exp)
            else if (i1 <? i2)%N then _fix (Finite s2 (i2 - i1) x1)
            else _fix (Finite s1 (i1 - i2) x1)
      | _, _ => Raise InvalidOperation
      end
  end.

(** [Decimal.__mul__]; the shortcuts for a zero operand and for a
    coefficient of 1 give the same triple as the general product. *)
Definition mul (self other : t) : result t :=
  match check_nans self other with
  | Some r => r
  | None =>
      match self, other with
      | Infinity s1, Infinity s2 => Ok (Infinity (xorb s1 s2))
      | Infinity s1, Finite s2 c2 _ =>
          if (c2 =? 0)%N then Raise InvalidOperation else Ok (Infinity (xorb s1 s2))
      | Finite s1 c1 _, Infinity s2 =>
          if (c1 =? 0)%N then Raise InvalidOperation else Ok (Infinity (xorb s1 s2))
      | Finite s1 c1 e1, Finite s2 c2 e2 =>
          _fix (Finite (xorb s1 s2) (c1 * c2) (e1 + e2))
      | _, _ => Raise InvalidOperation
      end
  end.

(** The rational number a finite decimal stands for,
    [(-1)^sign * coeff * 10^exp]. *)
Definition to_Q (d : t) : Q :=
  match d with
  | Finite sign coeff exp =>
      (inject_Z (if sign then - Z.of_N coeff else Z.of_N coeff) * (10 # 1) ^ exp)%Q
  | _ => 0%Q
  end.

Definition is_finite (d : t) : bool :=
  match d with Finite _ _ _ => true | _ => false end.

(** *** Values in units of a power of ten *)

Definition sgn (s : bool) : Z := if s then -1 else 1.

(** The value of a finite decimal in units of [10^m], for [m ≤ exp]. *)
Definition units (m : Z) (s : bool) (c : N) (e : Z) : Z :=
  sgn s * Z.of_N c * 10 ^ (e - m).

(** [d] is finite, with an exponent of at least [m], and is worth [v]
    units of [10^m]. *)
Definition repr (m v : Z) (d : t) : Prop :=
  ∃ s c e, d = Finite s c e ∧ m ≤ e ∧ units m s c e = v.

End Decimal.

(** ** Python [dict]: keys in insertion order, each key once *)

Abbreviation dict V := (list (string * V)).

Section dict.
Context {V : Type}.

(** [d.get(k)] *)
Fixpoint dict_get (k : string) (d : dict V) : option V :=
  match d with
  | [] => None
  | (k', v) :: d' => if decide (k = k') then Some v else dict_get k d'
  end.

(** [k in d] *)
Definition dict_contains (k : string) (d : dict V) : bool :=
  bool_decide (is_Some (dict_get k d)).

(** [d[k]] *)
Definition dict_getitem (k : string) (d : dict V) : result V :=
  match dict_get k d with
  | Some v => Ok v
  | None => Raise (KeyError k)
  end.

(** [d[k] = v]: a present key keeps its place, a new key goes last. *)
Fixpoint dict_setitem (k : string) (v : V) (d : dict V) : dict V :=
  match d with
  | [] => [(k, v)]
  | (k', v') :: d' =>
      if decide (k = k') then (k, v) :: d' else (k', v') :: dict_setitem k v d'
  end.

Fixpoint dict_remove (k : string) (d : dict V) : dict V :=
  match d with
  | [] => []
  | (k', v') :: d' =>
      if decide (k = k') then d' else (k', v') :: dict_remove k d'
  end.

(** [d.pop(k)] *)
Definition dict_pop (k : string) (d : dict V) : result (V * dict V) :=
  match dict_get k d with
  | Some v => Ok (v, dict_remove k d)
  | None => Raise (KeyError k)
  end.

Definition dict_keys (d : dict V) : list string := d.*1.
Definition dict_values (d : dict V) : list V := d.*2.

(** The keys of a dict are pairwise distinct. *)
Definition dict_wf (d : dict V) : Prop := NoDup (dict_keys d).
End dict.

(** ** The collaborators *)

(** Modelled from the spec: the catalog's product record ([shop.models] is
    not part of the sources): a numeric id, the current price as a decimal,
    and the rest of the record. *)
Module Product.
Record t := { id : Z; name : string; price : Decimal.t }.
End Product.

(** A line item, [{'quantity': int, 'price': str}]. *)
Module Item.
Record t := { quantity : Z; price : string }.
End Item.

(** [str(product.id)] *)
Definition str (n : Z) : string := pretty n.

(** Objects live in a heap, so that the session and a [Cart] can hold the
    same mapping. *)
Definition loc := positive.

(** A session value: [None] or a reference to a cart mapping. *)
Inductive sval :=
| SNone
| SRef (l : loc).

(** The session collaborator (Django's [SessionBase]): a mapping and the
    [modified] flag.  Item assignment and deletion set the flag. *)
Record Session := { data : gmap string sval; modified : bool }.

Record State := { session : Session; heap : gmap loc (dict Item.t) }.

(** A [Cart] instance: [self.session] is the request's session, the one of
    the state; [self.cart] is a reference. *)
Record Cart := { cart : loc }.

Definition deref (st : State) (l : loc) : dict Item.t :=
  default [] (heap st !! l).

Definition store (l : loc) (d : dict Item.t) (st : State) : State :=
  {| session := session st; heap := <[l := d]> (heap st) |}.

(** [session.get(key)] *)
Definition session_get (key : string) (st : State) : sval :=
  default SNone (data (session st) !! key).

(** [session[key] = value] *)
Definition session_setitem (key : string) (v : sval) (st : State) : State :=
  {| session := {| data := <[key := v]> (data (session st)); modified := true |};
     heap := heap st |}.

(** [key in session] *)
Definition session_contains (key : string) (st : State) : bool :=
  bool_decide (is_Some (data (session st) !! key)).

(** [del session[key]] *)
Definition session_delitem (key : string) (st : State) : result State :=
  match data (session st) !! key with
  | Some _ =>
      Ok {| session := {| data := delete key (data (session st)); modified := true |};
            heap := heap st |}
  | None => Raise (KeyError key)
  end.

(** The value of [sum]'s accumulator: the [int] it starts from, or a
    [Decimal]. *)
Inductive number :=
| PyInt (n : Z)
| PyDecimal (d : Decimal.t).

(** [Decimal(s)] *)
Definition Decimal_new (s : string) : result Decimal.t :=
  match Decimal.of_string s with
  | Some d => Ok d
  | None => Raise InvalidOperation
  end.

(** [acc + x] for a [Decimal] [x]; an [int] on the left goes through
    [Decimal.__radd__]. *)
Definition number_add (acc : number) (x : Decimal.t) : result Decimal.t :=
  match acc with
  | PyInt n => Decimal.add x (Decimal.of_int n)
  | PyDecimal a => Decimal.add a x
  end.

(** An enriched item, as yielded by [Cart.__iter__]. *)
Module Enriched.
Record t := {
  quantity : Z;
  price : Decimal.t;
  product : Product.t;
  total_price : Decimal.t
}.
End Enriched.

(** ** [class Cart] *)
Section Cart.
(** [settings.CART_SESSION_ID] *)
Variable CART_SESSION_ID : string.

(** [Cart._get_or_create_cart] *)
Definition _get_or_create_cart (st : State) : loc * State :=
  match session_get CART_SESSION_ID st with
  | SRef l => (l, st)
  | SNone =>
      let l := fresh (dom (heap st)) in
      (l, session_setitem CART_SESSION_ID (SRef l) (store l [] st))
  end.

(** [Cart.__init__] *)
Definition __init__ (st : State) : Cart * State :=
  let '(l, st) := _get_or_create_cart st in ({| cart := l |}, st).

(** [Cart.save] *)
Definition save (st : State) : State :=
  {| session := {| data := data (session st); modified := true |};
     heap := heap st |}.

(** [Cart.add] *)
Definition add (self : Cart) (product : Product.t) (quantity : Z)
    (override_quantity : bool) (st : State) : result State :=
  let product_id := str (Product.id product) in
  let st :=
    if negb (dict_contains product_id (deref st (cart self))) then
      store (cart self)
        (dict_setitem product_id
           {| Item.quantity := 0;
              Item.price := Decimal.to_string (Product.price product) |}
           (deref st (cart self))) st
    else st in
  q ← (if override_quantity then Ok quantity
       else item ← dict_getitem product_id (deref st (cart self));
            Ok (Item.quantity item + quantity));
  item ← dict_getitem product_id (deref st (cart self));
  let item := {| Item.quantity := q; Item.price := Item.price item |} in
  Ok (save (store (cart self)
              (dict_setitem product_id item (deref st (cart self))) st)).

(** [Cart.remove] *)
Definition remove (self : Cart) (product : Product.t) (st : State) : result State :=
  let product_id := str (Product.id product) in
  if dict_contains product_id (deref st (cart self)) then
    '(_, d) ← dict_pop product_id (deref st (cart self));
    Ok (save (store (cart self) d st))
  else Ok st.

(** [Cart.clear] *)
Definition clear (self : Cart) (st : State) : result State :=
  if session_contains CART_SESSION_ID st then
    st ← session_delitem CART_SESSION_ID st;
    Ok (save st)
  else Ok st.

(** One term of the sum in [get_total_price]:
    [Decimal(item['price']) * item['quantity']]. *)
Definition line_total (item : Item.t) : result Decimal.t :=
  p ← Decimal_new (Item.price item);
  Decimal.mul p (Decimal.of_int (Item.quantity item)).

(** [sum(...)] over the generator, from the accumulator [acc]. *)
Fixpoint sum_line_totals (acc : number) (items : list Item.t) : result number :=
  match items with
  | [] => Ok acc
  | item :: items =>
      x ← line_total item;
      acc ← number_add acc x;
      sum_line_totals (PyDecimal acc) items
  end.

(** [Cart.get_total_price] *)
Definition get_total_price (self : Cart) (st : State) : result number :=
  sum_line_totals (PyInt 0) (dict_values (deref st (cart self))).

(** Modelled from the spec: the catalog lookup
    [Product.objects.filter(id__in=product_ids)] returns the current
    records whose id is among [product_ids], omitting ids with no match;
    [objects] is the catalog's current content. *)
Definition filter_id_in (objects : list Product.t) (product_ids : list string)
    : list Product.t :=
  filter (λ p, str (Product.id p) ∈ product_ids) objects.

(** [{str(p.id): p for p in products}], one product after the other *)
Definition lookup_step (d : dict Product.t) (p : Product.t) : dict Product.t :=
  dict_setitem (str (Product.id p)) p d.

Definition product_lookup (products : list Product.t) : dict Product.t :=
  foldl lookup_step [] products.

(** The body of the loop of [__iter__] for one line item: [None] when the
    item is skipped, otherwise the enriched copy or the exception raised
    on the way. *)
Definition enrich (lookup : dict Product.t) (product_id : string)
    (item : Item.t) : option (result Enriched.t) :=
  match dict_get product_id lookup with
  | None => None
  | Some product =>
      Some (price ← Decimal_new (Item.price item);
            total_price ← Decimal.mul price (Decimal.of_int (Item.quantity item));
            Ok {| Enriched.quantity := Item.quantity item;
                  Enriched.price := price;
                  Enriched.product := product;
                  Enriched.total_price := total_price |})
  end.

(** What a generator does: the values it yields, then either the end of
    the iteration or an exception. *)
Fixpoint iter_items (lookup : dict Product.t) (items : dict Item.t)
    : list Enriched.t * option exn :=
  match items with
  | [] => ([], None)
  | (product_id, item) :: items =>
      match enrich lookup product_id item with
      | None => iter_items lookup items
      | Some (Raise e) => ([], Some e)
      | Some (Ok x) =>
          let '(xs, e) := iter_items lookup items in (x :: xs, e)
      end
  end.

(** [Cart.__iter__]; the loop works on [item.copy()], so nothing in the
    state is written. *)
Definition __iter__ (objects : list Product.t) (self : Cart) (st : State)
    : list Enriched.t * option exn :=
  let product_ids := dict_keys (deref st (cart self)) in
  let products := filter_id_in objects product_ids in
  let lookup := product_lookup products in
  iter_items lookup (deref st (cart self)).

(** [Cart.__len__] *)
Definition __len__ (self : Cart) (st : State) : Z :=
  foldl Z.add 0 (Item.quantity <$> dict_values (deref st (cart self))).

(** The builtin [len(cart)], which checks what [__len__] returns. *)
Definition len (self : Cart) (st : State) : result Z :=
  let n := __len__ self st in
  if n <? 0 then Raise ValueError
  else if 2 ^ 63 - 1 <? n then Raise OverflowError
  else Ok n.
End Cart.

(** ** Notions used in the statements *)

(** The item [add] leaves under the product's key. *)
Definition added_item (old : option Item.t) (product : Product.t)
    (quantity : Z) (override_quantity : bool) : Item.t :=
  match old with
  | None =>
      {| Item.quantity := quantity;
         Item.price := Decimal.to_string (Product.price product) |}
  | Some item =>
      {| Item.quantity :=
           if override_quantity then quantity else Item.quantity item + quantity;
         Item.price := Item.price item |}
  end.

(** The spec's words: the sum of all line items' quantities. *)
Fixpoint total_quantity (d : dict Item.t) : Z :=
  match d with
  | [] => 0
  | (_, item) :: d => Item.quantity item + total_quantity d
  end.

(** The product id [k] is found in the catalog. *)
Definition in_catalog (objects : list Product.t) (k : string) : Prop :=
  Exists (λ p, str (Product.id p) = k) objects.

(** [x] is the enriched record of the line item [kv]: the stored quantity,
    the stored price as a decimal, their product, and a catalog record
    with the item's id. *)
Definition enriches (objects : list Product.t) (kv : string * Item.t)
    (x : Enriched.t) : Prop :=
  Enriched.quantity x = Item.quantity kv.2 ∧
  Decimal.of_string (Item.price kv.2) = Some (Enriched.price x) ∧
  Decimal.mul (Enriched.price x) (Decimal.of_int (Item.quantity kv.2))
    = Ok (Enriched.total_price x) ∧
  Enriched.product x ∈ objects ∧
  str (Product.id (Enriched.product x)) = kv.1.

(** The rational value of a stored price. *)
Definition price_Q (item : Item.t) : Q :=
  match Decimal.of_string (Item.price item) with
  | Some d => Decimal.to_Q d
  | None => 0%Q
  end.

(** The spec's words: the sum over all line items of price × quantity, in
    exact rational arithmetic. *)
Definition exact_total (items : list Item.t) : Q :=
  foldr (λ item acc, price_Q item * inject_Z (Item.quantity item) + acc)%Q 0%Q items.

Definition number_Q (r : number) : Q :=
  match r with
  | PyInt n => inject_Z n
  | PyDecimal d => Decimal.to_Q d
  end.

Definition number_is_finite (r : number) : bool :=
  match r with
  | PyInt _ => true
  | PyDecimal d => Decimal.is_finite d
  end.

(** The price parses as a finite decimal with an exponent of at least [m]. *)
Definition price_fits (m : Z) (item : Item.t) : bool :=
  match Decimal.of_string (Item.price item) with
  | Some (Decimal.Finite _ _ e) => m <=? e
  | _ => false
  end.

(** [|price × quantity|] in units of [10^m]. *)
Definition abs_units (m : Z) (item : Item.t) : Z :=
  match Decimal.of_string (Item.price item) with
  | Some (Decimal.Finite _ c e) => Z.of_N c * 10 ^ (e - m) * Z.abs (Item.quantity item)
  | _ => 0
  end.

(** The cart fits the 28-digit context: counted in units of [10^m], for an
    [m] between [Etiny] and 0 below every price's exponent, the absolute
    line totals add up to less than [10^28]. *)
Definition fits_context (m : Z) (items : list Item.t) : bool :=
  (Decimal.Etiny <=? m) && (m <=? 0) && forallb (price_fits m) items &&
  (foldr (λ item acc, abs_units m item + acc) 0 items <? 10 ^ 28).

(** [price × quantity] in units of [10^m], signed. *)
Definition line_units (m : Z) (item : Item.t) : Z :=
  match Decimal.of_string (Item.price item) with
  | Some (Decimal.Finite s c e) => Decimal.units m s c e * Item.quantity item
  | _ => 0
  end.

(** The signals the default decimal context traps in the operations the
    cart uses. *)
Definition decimal_signal (e : exn) : Prop := e = InvalidOperation ∨ e = Overflow.

(** ** Concrete carts *)

Module Examples.
Definition empty_state : State :=
  {| session := {| data := ∅; modified := false |}; heap := ∅ |}.

(** [Product(id=id, price=Decimal(price))] *)
Definition product (id : Z) (price : string) : Product.t :=
  {| Product.id := id; Product.name := "";
     Product.price := default (Decimal.NaN false false 0) (Decimal.of_string price) |}.

(** [cart = Cart(request)] on a new session, then the calls [ops] in
    order. *)
Definition after (ops : list (Cart → State → result State))
    : result (Cart * State) :=
  let '(c, st) := __init__ "cart" empty_state in
  st ← foldl (λ r op, st ← r; op c st) (Ok st) ops;
  Ok (c, st).

Definition observe {A} (f : Cart → State → A) (r : result (Cart * State))
    : result A :=
  '(c, st) ← r; Ok (f c st).

Definition item_of (product_id : string) (self : Cart) (st : State)
    : option Item.t :=
  dict_get product_id (deref st (cart self)).

(** The cart [{A: quantity 2, price 5.00; B: quantity 1, price 3.50}],
    with ids 1 and 2, attached to the session. *)
Definition cart_AB : Cart := {| cart := 1%positive |}.
Definition state_AB : State :=
  {| session := {| data := {["cart" := SRef 1%positive]}; modified := false |};
     heap := {[ 1%positive :=
                [("1", {| Item.quantity := 2; Item.price := "5.00" |});
                 ("2", {| Item.quantity := 1; Item.price := "3.50" |})] ]} |}.

(** [{1: quantity 1, price 10^28; 2: quantity 1, price 0.01}] *)
Definition cart_big : Cart := {| cart := 1%positive |}.
Definition state_big : State :=
  {| session := {| data := {["cart" := SRef 1%positive]}; modified := true |};
     heap := {[ 1%positive :=
                [("1", {| Item.quantity := 1;
                          Item.price := "10000000000000000000000000000" |});
                 ("2", {| Item.quantity := 1; Item.price := "0.01" |})] ]} |}.

(** [{1: quantity 1, price "abc"}], as left by corrupted session data *)
Definition state_malformed : State :=
  {| session := {| data := {["cart" := SRef 1%positive]}; modified := false |};
     heap := {[ 1%positive :=
                [("1", {| Item.quantity := 1; Item.price := "abc" |})] ]} |}.

(** [{1: quantity 1, price "0E+1000000000000000000"}]: a zero whose exponent
    is beyond [MAX_EMAX], as left by corrupted session data *)
Definition state_beyond : State :=
  {| session := {| data := {["cart" := SRef 1%positive]}; modified := false |};
     heap := {[ 1%positive :=
                [("1", {| Item.quantity := 1;
                          Item.price := "0E+1000000000000000000" |})] ]} |}.

(** [Product(id=1, price=Decimal('1E+999999'))] *)
Definition product_huge : Product.t := product 1 "1E+999999".

(** A [Cart] on a new session, and the state after
    [cart.add(product_huge, quantity=10)]. *)
Definition cart_new : Cart := (__init__ "cart" empty_state).1.
Definition state_huge : State :=
  match add cart_new product_huge 10 false (__init__ "cart" empty_state).2 with
  | Ok st => st
  | Raise _ => empty_state
  end.
End Examples.

(** The states a cart goes through: a [Cart] built on a new session, then
    any sequence of [add], [remove] and [clear]. *)
Inductive reachable (CART_SESSION_ID : string) : Cart → State → Prop :=
| reachable_init :
    reachable CART_SESSION_ID
      (__init__ CART_SESSION_ID Examples.empty_state).1
      (__init__ CART_SESSION_ID Examples.empty_state).2
| reachable_add self st product quantity override_quantity st' :
    reachable CART_SESSION_ID self st →
    add self product quantity override_quantity st = Ok st' →
    reachable CART_SESSION_ID self st'
| reachable_remove self st product st' :
    reachable CART_SESSION_ID self st →
    remove self product st = Ok st' →
    reachable CART_SESSION_ID self st'
| reachable_clear self st st' :
    reachable CART_SESSION_ID self st →
    clear CART_SESSION_ID self st = Ok st' →
    reachable CART_SESSION_ID self st'.


(** ** The text of a decimal *)

Module DecimalText.
Import Decimal.

(** A decimal digit. *)
Definition digit (a : ascii) : Prop := is_digit a = true.

(** The next character, if any, is no digit. *)
Definition stops (rest : list ascii) : Prop :=
  match rest with [] => True | a :: _ => is_digit a = false end.

(** A printable character of a decimal: no space and no underscore. *)
Definition plain (a : ascii) : Prop :=
  is_space a = false ∧ a ≠ "_"%char.

(** The exponent part, as [to_string] prints it and [lower] leaves it. *)
Definition exp_chars (e : Z) : list ascii :=
  if e =? 0 then []
  else "e"%char :: (if e <? 0 then "-"%char else "+"%char)
         :: list_ascii_of_string (pretty (Z.abs_N e)).

(** The exponent part as printed. *)
Definition exp_upper (e : Z) : list ascii :=
  if e =? 0 then []
  else "E"%char :: (if e <? 0 then "-"%char else "+"%char)
         :: list_ascii_of_string (pretty (Z.abs_N e)).

End DecimalText.

(** The price string is the text of a decimal, which reads back when the
    decimal is within the limits of the implementation. *)
Definition price_is_decimal (item : Item.t) : Prop :=
  ∃ d, Item.price item = Decimal.to_string d ∧
       (Decimal.in_limits d = true →
        Decimal.of_string (Item.price item) = Some d).

(** Any sequence of [add], [remove] and [clear] on one instance. *)
Inductive steps (CART_SESSION_ID : string) (self : Cart) : State → State → Prop :=
| steps_done st : steps CART_SESSION_ID self st st
| steps_add st product quantity override_quantity st1 st2 :
    add self product quantity override_quantity st = Ok st1 →
    steps CART_SESSION_ID self st1 st2 →
    steps CART_SESSION_ID self st st2
| steps_remove st product st1 st2 :
    remove self product st = Ok st1 →
    steps CART_SESSION_ID self st1 st2 →
    steps CART_SESSION_ID self st st2
| steps_clear st st1 st2 :
    clear CART_SESSION_ID self st = Ok st1 →
    steps CART_SESSION_ID self st1 st2 →
    steps CART_SESSION_ID self st st2.

(** What one step may touch. *)
Definition frame (CART_SESSION_ID : string) (self : Cart) (st st' : State) : Prop :=
  (∀ k, k ≠ CART_SESSION_ID → data (session st') !! k = data (session st) !! k) ∧
  (∀ l, l ≠ cart self → heap st' !! l = heap st !! l) ∧
  (data (session st) !! CART_SESSION_ID = None →
   data (session st') !! CART_SESSION_ID = None) ∧
  (modified (session st) = true → modified (session st') = true) ∧
  (st' = st ∨ modified (session st') = true).

(** ** Facts about dicts *)

Section dict_facts.
Context {V : Type}.
Implicit Types (d : dict V) (k : string) (v : V).

Lemma dict_contains_true k d :
  dict_contains k d = true ↔ is_Some (dict_get k d).
Proof. unfold dict_contains. apply bool_decide_eq_true. Qed.

Lemma dict_contains_false k d :
  dict_contains k d = false ↔ dict_get k d = None.
Proof.
  unfold dict_contains. rewrite bool_decide_eq_false.
  by rewrite eq_None_not_Some.
Qed.

Lemma dict_get_setitem_eq k v d : dict_get k (dict_setitem k v d) = Some v.
Proof.
  induction d as [|[k' v'] d IH]; simpl.
  - by rewrite decide_True.
  - destruct (decide (k = k')) as [->|Hne]; simpl.
    + by rewrite decide_True.
    + by rewrite decide_False.
Qed.

Lemma dict_get_setitem_ne k k' v d :
  k' ≠ k → dict_get k' (dict_setitem k v d) = dict_get k' d.
Proof.
  intros Hne. induction d as [|[k0 v0] d IH]; simpl.
  - by rewrite decide_False.
  - destruct (decide (k = k0)) as [->|Hk]; simpl.
    + by rewrite !decide_False.
    + destruct (decide (k' = k0)); done.
Qed.

Lemma dict_get_None_keys k d : dict_get k d = None ↔ k ∉ dict_keys d.
Proof.
  unfold dict_keys. induction d as [|[k' v'] d IH]; simpl.
  - split; [intros _; apply not_elem_of_nil | done].
  - rewrite not_elem_of_cons. destruct (decide (k = k')) as [->|Hne].
    + split; [done | intros [? _]; done].
    + rewrite IH. split; [by split | by intros [_ ?]].
Qed.

Lemma dict_keys_remove_subseteq k d : dict_keys (dict_remove k d) ⊆ dict_keys d.
Proof.
  unfold dict_keys. induction d as [|[k' v'] d IH]; simpl; [done|].
  destruct (decide (k = k')); simpl.
  - intros x Hx. apply elem_of_cons. by right.
  - intros x. rewrite !elem_of_cons.
    intros [->|Hx]; [by left | right; by apply IH].
Qed.

Lemma dict_get_remove_ne k k' d :
  k' ≠ k → dict_get k' (dict_remove k d) = dict_get k' d.
Proof.
  intros Hne. induction d as [|[k0 v0] d IH]; simpl; [done|].
  destruct (decide (k = k0)) as [->|Hk]; simpl.
  - by rewrite decide_False.
  - destruct (decide (k' = k0)); done.
Qed.

Lemma dict_get_remove_eq k d : dict_wf d → dict_get k (dict_remove k d) = None.
Proof.
  unfold dict_wf, dict_keys. induction d as [|[k0 v0] d IH]; simpl; [done|].
  intros [Hnin Hnd]%NoDup_cons.
  destruct (decide (k = k0)) as [->|Hk]; simpl.
  - by apply dict_get_None_keys.
  - rewrite decide_False by done. by apply IH.
Qed.

Lemma dict_wf_setitem k v d : dict_wf d → dict_wf (dict_setitem k v d).
Proof.
  unfold dict_wf, dict_keys. induction d as [|[k0 v0] d IH]; simpl.
  - intros _. apply NoDup_singleton.
  - intros [Hnin Hnd]%NoDup_cons.
    destruct (decide (k = k0)) as [->|Hk]; simpl.
    + by apply NoDup_cons.
    + apply NoDup_cons. split; [|by apply IH].
      intros Hin. apply Hnin.
      apply (proj2 (dict_get_None_keys k0 d)) in Hnin as Hget.
      pose proof (dict_get_setitem_ne k k0 v d) as Hq.
      apply (dict_get_None_keys k0 (dict_setitem k v d)) in Hin; [done|].
      rewrite Hq; [done | congruence].
Qed.

Lemma dict_wf_remove k d : dict_wf d → dict_wf (dict_remove k d).
Proof.
  unfold dict_wf. induction d as [|[k0 v0] d IH]; simpl; [done|].
  unfold dict_keys in *. simpl. intros [Hnin Hnd]%NoDup_cons.
  destruct (decide (k = k0)) as [->|Hk]; simpl; [done|].
  apply NoDup_cons. split; [|by apply IH].
  intros Hin. apply Hnin. by apply (dict_keys_remove_subseteq k d).
Qed.
End dict_facts.

(** ** Facts about the state *)

Lemma deref_store_eq l d st : deref (store l d st) l = d.
Proof. unfold deref, store; simpl. by rewrite lookup_insert_eq. Qed.

Lemma deref_save st l : deref (save st) l = deref st l.
Proof. done. Qed.

Lemma dict_getitem_Some {V} k (v : V) d :
  dict_get k d = Some v → dict_getitem k d = Ok v.
Proof. unfold dict_getitem. by intros ->. Qed.

(** [add] never raises, and its effect is one [dict_setitem] on the
    instance's mapping followed by [save]. *)
Lemma add_eq self product quantity override_quantity st :
  let k := str (Product.id product) in
  let d := deref st (cart self) in
  add self product quantity override_quantity st =
    Ok (save (store (cart self)
                (dict_setitem k
                   (added_item (dict_get k d) product quantity override_quantity) d)
                st)).
Proof.
  intros k d. unfold add. fold k. fold d.
  destruct (dict_get k d) as [item|] eqn:Hget.
  - assert (dict_contains k d = true) as ->.
    { apply dict_contains_true. by rewrite Hget. }
    simpl. fold d. rewrite (dict_getitem_Some _ _ _ Hget).
    destruct override_quantity; simpl; by rewrite ?(dict_getitem_Some _ _ _ Hget).
  - assert (dict_contains k d = false) as ->.
    { by apply dict_contains_false. }
    simpl. rewrite deref_store_eq.
    rewrite (dict_getitem_Some _ _ _ (dict_get_setitem_eq _ _ _)).
    assert (∀ v w, dict_setitem k w (dict_setitem k v d) = dict_setitem k w d) as Hss.
    { clear. intros v w. induction d as [|[k0 v0] d IH]; simpl.
      - by rewrite decide_True.
      - destruct (decide (k = k0)) as [->|Hne]; simpl.
        + by rewrite decide_True.
        + rewrite decide_False by done. by rewrite IH. }
    assert (∀ d1 d2, store (cart self) d2 (store (cart self) d1 st)
                     = store (cart self) d2 st) as Hst.
    { intros d1 d2. unfold store; simpl. by rewrite insert_insert_eq. }
    destruct override_quantity; simpl;
      rewrite ?(dict_getitem_Some _ _ _ (dict_get_setitem_eq _ _ _)); simpl;
      rewrite Hss, Hst; repeat f_equal; lia.
Qed.

(** The effect of [clear], by cases on the cart key. *)
Lemma clear_effect CART_SESSION_ID self st :
  ∃ st',
    clear CART_SESSION_ID self st = Ok st' ∧
    match data (session st) !! CART_SESSION_ID with
    | Some _ =>
        data (session st') = delete CART_SESSION_ID (data (session st)) ∧
        session_contains CART_SESSION_ID st' = false ∧
        modified (session st') = true ∧
        heap st' = heap st ∧
        deref st' (cart self) = deref st (cart self)
    | None => st' = st
    end.
Proof.
  unfold clear, session_contains, session_delitem.
  destruct (data (session st) !! CART_SESSION_ID) as [v|] eqn:Hkey.
  - rewrite bool_decide_eq_true_2 by done. simpl. eexists. split; [done|].
    simpl. repeat split.
    apply bool_decide_eq_false_2. rewrite lookup_delete_eq. by intros [? ?].
  - rewrite bool_decide_eq_false_2 by (by intros [? ?]). by eexists.
Qed.

(** No operation of the cart itself raises. *)
Lemma remove_ok self product st : ∃ st', remove self product st = Ok st'.
Proof.
  unfold remove, dict_pop.
  destruct (dict_contains _ _) eqn:Hc; [|by eexists].
  apply dict_contains_true in Hc as [item ->]. by eexists.
Qed.

(** In every state a cart goes through, the keys of its mapping are
    pairwise distinct. *)
Lemma reachable_wf CART_SESSION_ID self st :
  reachable CART_SESSION_ID self st → dict_wf (deref st (cart self)).
Proof.
  induction 1 as [|self st product quantity override_quantity st' _ IH Hadd
                  |self st product st' _ IH Hrem
                  |self st st' _ IH Hclear].
  - unfold __init__, _get_or_create_cart, session_get. simpl.
    rewrite lookup_empty. simpl. unfold deref. simpl.
    rewrite lookup_insert_eq. apply NoDup_nil_2.
  - rewrite add_eq in Hadd. injection Hadd as <-.
    rewrite deref_save, deref_store_eq. by apply dict_wf_setitem.
  - unfold remove, dict_pop in Hrem.
    destruct (dict_contains _ _) eqn:Hc.
    + apply dict_contains_true in Hc as [item Hget]. rewrite Hget in Hrem.
      injection Hrem as <-.
      rewrite deref_save, deref_store_eq. by apply dict_wf_remove.
    + by injection Hrem as <-.
  - destruct (clear_effect CART_SESSION_ID self st) as (st1 & Hst1 & Heff).
    rewrite Hst1 in Hclear. injection Hclear as <-.
    destruct (data (session st) !! CART_SESSION_ID).
    + destruct Heff as (_ & _ & _ & _ & ->). done.
    + by subst st1.
Qed.

(** ** Facts about [sum] over quantities *)

Lemma foldl_add_quantities (acc : Z) (d : dict Item.t) :
  foldl Z.add acc (Item.quantity <$> dict_values d) = acc + total_quantity d.
Proof.
  revert acc. induction d as [|[k item] d IH]; intros acc; simpl; [lia|].
  unfold dict_values in IH. rewrite IH. lia.
Qed.

(** ** Decimal arithmetic that stays within the context *)

Module DecimalFacts.
Import Decimal.

Lemma Z_of_pow10 k : 0 ≤ k → Z.of_N (pow10 k) = 10 ^ k.
Proof.
  intros Hk. unfold pow10. rewrite Z2N.id; [done|].
  by apply Z.pow_nonneg.
Qed.

Lemma pow10_add a b : 0 ≤ a → 0 ≤ b → 10 ^ (a + b) = 10 ^ a * 10 ^ b.
Proof. intros. by apply Z.pow_add_r. Qed.

Lemma pow10_lt_inv a b : 0 ≤ a → 10 ^ a < 10 ^ b → a < b.
Proof.
  intros Ha Hlt. destruct (Z_lt_le_dec a b) as [|Hle]; [done|].
  destruct (Z_lt_le_dec b 0) as [Hb|Hb].
  - rewrite (Z.pow_neg_r 10 b Hb) in Hlt.
    pose proof (Z.pow_pos_nonneg 10 a ltac:(lia) Ha). lia.
  - pose proof (Z.pow_le_mono_r 10 b a ltac:(lia) Hle). lia.
Qed.

Lemma ndigits_go_spec fuel n :
  (n < 2 ^ N.of_nat fuel)%N →
  1 ≤ ndigits_go fuel n ∧
  (0 < Z.of_N n →
   10 ^ (ndigits_go fuel n - 1) ≤ Z.of_N n < 10 ^ ndigits_go fuel n).
Proof.
  revert n. induction fuel as [|fuel IH]; intros n Hn.
  - simpl in *. split; [lia|]. lia.
  - cbn [ndigits_go]. destruct (N.ltb_spec n 10) as [Hlt|Hge].
    + split; [lia|]. intros Hpos. simpl. lia.
    + assert (n / 10 < 2 ^ N.of_nat fuel)%N as Hdiv.
      { rewrite Nat2N.inj_succ, N.pow_succ_r' in Hn.
        apply N.Div0.div_lt_upper_bound. lia. }
      destruct (IH _ Hdiv) as [H1 H2].
      assert (0 < Z.of_N (n / 10)) as Hq.
      { rewrite N2Z.inj_div. apply Z.div_str_pos. lia. }
      specialize (H2 Hq). rewrite N2Z.inj_div in H2. simpl (Z.of_N 10) in H2.
      set (r := ndigits_go fuel (n / 10)%N) in *.
      split; [lia|]. intros _.
      replace (1 + r - 1) with (1 + (r - 1)) by lia.
      rewrite !pow10_add by lia. change (10 ^ 1) with 10.
      pose proof (Z.div_mod (Z.of_N n) 10 ltac:(lia)).
      pose proof (Z.mod_pos_bound (Z.of_N n) 10 ltac:(lia)).
      lia.
Qed.

Lemma ndigits_spec n :
  1 ≤ ndigits n ∧
  (0 < Z.of_N n → 10 ^ (ndigits n - 1) ≤ Z.of_N n < 10 ^ ndigits n).
Proof.
  apply ndigits_go_spec. rewrite Nat2N.inj_succ, N2Nat.id.
  destruct (N.eq_dec n 0%N) as [->|Hn]; [done|].
  apply N.log2_spec. lia.
Qed.

Lemma units_abs m s c e : Z.abs (units m s c e) = Z.of_N c * 10 ^ (e - m).
Proof.
  unfold units, sgn.
  assert (0 ≤ Z.of_N c * 10 ^ (e - m)).
  { apply Z.mul_nonneg_nonneg; [lia|]. apply Z.pow_nonneg. lia. }
  destruct s; lia.
Qed.

Lemma units_zero m s e : units m s 0 e = 0.
Proof. unfold units. simpl. lia. Qed.

(** A non-zero coefficient below [10^28] units has few digits and a small
    exponent. *)
Lemma units_bound m s c e :
  m ≤ e → c ≠ 0%N → Z.abs (units m s c e) < 10 ^ 28 →
  ndigits c + e - m ≤ 28 ∧ 0 < Z.of_N c.
Proof.
  intros Hme Hc Hb. rewrite units_abs in Hb.
  assert (0 < Z.of_N c) as Hpos by lia. split; [|done].
  destruct (ndigits_spec c) as [H1 H2]. specialize (H2 Hpos).
  assert (0 < 10 ^ (e - m)) as Hp by (apply Z.pow_pos_nonneg; lia).
  assert (0 < 10 ^ (ndigits c - 1)) as Hq by (apply Z.pow_pos_nonneg; lia).
  assert (10 ^ (ndigits c - 1 + (e - m)) < 10 ^ 28) as Hlt.
  { rewrite pow10_add by lia. nia. }
  apply pow10_lt_inv in Hlt; lia.
Qed.

Lemma fix_id m s c e :
  Etiny ≤ m → m ≤ 0 → m ≤ e → e ≤ Emax →
  Z.abs (units m s c e) < 10 ^ 28 →
  _fix (Finite s c e) = Ok (Finite s c e).
Proof.
  intros Hm1 Hm2 Hme HeM Hb. unfold _fix.
  destruct (N.eqb_spec c 0) as [->|Hc].
  - do 2 f_equal. unfold Etiny, Emin, Emax, prec in *. lia.
  - destruct (units_bound m s c e Hme Hc Hb) as [Hnd Hpos].
    unfold Etiny, Etop, Emin, Emax, prec in *.
    destruct (Z.ltb_spec (999999 - 28 + 1) (ndigits c + e - 28)); [lia|].
    destruct (Z.ltb_spec (ndigits c + e - 28) (-999999 - 28 + 1));
      match goal with
      | |- context [Z.ltb e ?x] => destruct (Z.ltb_spec e x); [lia | done]
      end.
Qed.

Lemma fix_repr m s c e :
  Etiny ≤ m → m ≤ 0 → m ≤ e →
  Z.abs (units m s c e) < 10 ^ 28 →
  ∃ d, _fix (Finite s c e) = Ok d ∧ repr m (units m s c e) d.
Proof.
  intros Hm1 Hm2 Hme Hb.
  destruct (N.eq_dec c 0%N) as [->|Hc].
  - eexists. split; [reflexivity|]. eexists _, _, _. split; [reflexivity|].
    rewrite !units_zero. unfold Etiny, Emin, Emax, prec in *. lia.
  - destruct (units_bound m s c e Hme Hc Hb) as [Hnd Hpos].
    destruct (ndigits_spec c) as [H1 _].
    rewrite (fix_id m) by (unfold Emax; lia || done).
    eexists. split; [done|]. by eexists _, _, _.
Qed.

Lemma sgn_xorb a b : sgn (xorb a b) = sgn a * sgn b.
Proof. by destruct a, b. Qed.

Lemma sgn_abs q : sgn (q <? 0) * Z.of_N (Z.abs_N q) = q.
Proof. unfold sgn. destruct (Z.ltb_spec q 0); lia. Qed.

(** [Decimal * int] is exact when the product is below [10^28] units. *)
Lemma mul_repr m s c e q :
  Etiny ≤ m → m ≤ 0 → m ≤ e →
  Z.abs (units m s c e * q) < 10 ^ 28 →
  ∃ d, mul (Finite s c e) (of_int q) = Ok d ∧ repr m (units m s c e * q) d.
Proof.
  intros Hm1 Hm2 Hme Hb. unfold mul, of_int. simpl.
  assert (units m (xorb s (q <? 0)) (c * Z.abs_N q) (e + 0)
          = units m s c e * q) as Heq.
  { unfold units. rewrite sgn_xorb, N2Z.inj_mul, Z.add_0_r.
    pose proof (sgn_abs q) as Hq.
    transitivity (sgn s * Z.of_N c * 10 ^ (e - m)
                  * (sgn (q <? 0) * Z.of_N (Z.abs_N q))); [ring|].
    by rewrite Hq. }
  rewrite <- Heq in Hb |- *. apply fix_repr; lia.
Qed.

Lemma units_rescale m s c e x :
  m ≤ x → x ≤ e → units m s (c * pow10 (e - x)) x = units m s c e.
Proof.
  intros Hmx Hxe. unfold units.
  rewrite N2Z.inj_mul, Z_of_pow10 by lia.
  replace (e - m) with ((e - x) + (x - m)) by lia.
  rewrite pow10_add by lia. ring.
Qed.

Lemma units_add m s a b e :
  units m s (a + b) e = units m s a e + units m s b e.
Proof. unfold units. rewrite N2Z.inj_add. ring. Qed.

Lemma units_sub m s a b e :
  (b ≤ a)%N → units m s (a - b) e = units m s a e - units m s b e.
Proof. intros Hle. unfold units. rewrite N2Z.inj_sub by done. ring. Qed.

Lemma units_neg m s1 s2 c e :
  s1 ≠ s2 → units m s1 c e = - units m s2 c e.
Proof. intros Hne. unfold units, sgn. destruct s1, s2; try done; ring. Qed.

Lemma normalize_exact m s1 c1 e1 s2 c2 e2 :
  m ≤ e1 → m ≤ e2 → c1 ≠ 0%N → c2 ≠ 0%N →
  Z.abs (units m s1 c1 e1) < 10 ^ 28 →
  Z.abs (units m s2 c2 e2) < 10 ^ 28 →
  normalize (c1, e1) (c2, e2) =
    (((c1 * pow10 (e1 - Z.min e1 e2))%N, Z.min e1 e2),
     ((c2 * pow10 (e2 - Z.min e1 e2))%N, Z.min e1 e2)).
Proof.
  intros H1 H2 Hc1 Hc2 Hb1 Hb2.
  destruct (units_bound m s1 c1 e1 H1 Hc1 Hb1) as [Hn1 _].
  destruct (units_bound m s2 c2 e2 H2 Hc2 Hb2) as [Hn2 _].
  destruct (ndigits_spec c1) as [Hd1 _].
  destruct (ndigits_spec c2) as [Hd2 _].
  unfold normalize. cbn [fst snd]. unfold prec.
  destruct (Z.ltb_spec e1 e2) as [Hlt|Hge]; cbn [fst snd].
  - rewrite (Z.min_l e1 e2) by lia.
    destruct (Z.ltb_spec (ndigits c1 + e1 - 1)
                (e2 + Z.min (-1) (ndigits c2 - 28 - 2))); [lia|].
    cbn [fst snd]. rewrite Z.sub_diag. change (pow10 0) with 1%N.
    by rewrite N.mul_1_r.
  - rewrite (Z.min_r e1 e2) by lia.
    destruct (Z.ltb_spec (ndigits c2 + e2 - 1)
                (e1 + Z.min (-1) (ndigits c1 - 28 - 2))); [lia|].
    cbn [fst snd]. rewrite Z.sub_diag. change (pow10 0) with 1%N.
    by rewrite N.mul_1_r.
Qed.

Lemma add_finite s1 c1 e1 s2 c2 e2 :
  add (Finite s1 c1 e1) (Finite s2 c2 e2) =
    let exp := Z.min e1 e2 in
    if (c1 =? 0)%N && (c2 =? 0)%N then _fix (Finite (s1 && s2) 0 exp)
    else if (c1 =? 0)%N then
      _fix (rescale (Finite s2 c2 e2) (Z.max exp (e2 - prec - 1)))
    else if (c2 =? 0)%N then
      _fix (rescale (Finite s1 c1 e1) (Z.max exp (e1 - prec - 1)))
    else
      let '((i1, x1), (i2, _)) := normalize (c1, e1) (c2, e2) in
      if eqb s1 s2 then _fix (Finite s1 (i1 + i2) x1)
      else if (i1 =? i2)%N then _fix (Finite false 0 exp)
      else if (i1 <? i2)%N then _fix (Finite s2 (i2 - i1) x1)
      else _fix (Finite s1 (i1 - i2) x1).
Proof. reflexivity. Qed.

Lemma rescale_pad s c e x :
  c ≠ 0%N → x ≤ e → rescale (Finite s c e) x = Finite s (c * pow10 (e - x)) x.
Proof.
  intros Hc Hx. unfold rescale.
  destruct (N.eqb_spec c 0); [done|].
  destruct (Z.leb_spec x e); [done | lia].
Qed.

(** [Decimal + Decimal] is exact when the operands and the sum are below
    [10^28] units. *)
Lemma add_repr m v1 v2 d1 d2 :
  Etiny ≤ m → m ≤ 0 → repr m v1 d1 → repr m v2 d2 →
  Z.abs v1 < 10 ^ 28 → Z.abs v2 < 10 ^ 28 → Z.abs (v1 + v2) < 10 ^ 28 →
  ∃ d, add d1 d2 = Ok d ∧ repr m (v1 + v2) d.
Proof.
  intros Hm1 Hm2 (s1 & c1 & e1 & -> & He1 & <-) (s2 & c2 & e2 & -> & He2 & <-).
  intros Hb1 Hb2 Hb. rewrite add_finite. cbv zeta.
  destruct (N.eqb_spec c1 0) as [->|Hc1], (N.eqb_spec c2 0) as [->|Hc2];
    cbn [andb].
  - replace (units m s1 0 e1 + units m s2 0 e2)
      with (units m (s1 && s2) 0 (Z.min e1 e2)) by (rewrite !units_zero; lia).
    apply fix_repr; try lia. rewrite units_zero. by apply Z.pow_pos_nonneg.
  - rewrite (rescale_pad s2 c2 e2 _ Hc2) by (unfold prec; lia).
    rewrite units_zero, Z.add_0_l.
    rewrite <- (units_rescale m s2 c2 e2 (Z.max (Z.min e1 e2) (e2 - prec - 1)))
      in Hb2 |- * by (unfold prec; lia).
    apply fix_repr; first [assumption | unfold prec; lia].
  - rewrite (rescale_pad s1 c1 e1 _ Hc1) by (unfold prec; lia).
    rewrite units_zero, Z.add_0_r.
    rewrite <- (units_rescale m s1 c1 e1 (Z.max (Z.min e1 e2) (e1 - prec - 1)))
      in Hb1 |- * by (unfold prec; lia).
    apply fix_repr; first [assumption | unfold prec; lia].
  - rewrite (normalize_exact m s1 c1 e1 s2 c2 e2) by done.
    set (x := Z.min e1 e2) in *.
    set (i1 := (c1 * pow10 (e1 - x))%N).
    set (i2 := (c2 * pow10 (e2 - x))%N).
    assert (units m s1 i1 x = units m s1 c1 e1) as E1
      by (apply units_rescale; lia).
    assert (units m s2 i2 x = units m s2 c2 e2) as E2
      by (apply units_rescale; lia).
    rewrite <- E1, <- E2 in *.
    destruct (eqb_spec s1 s2) as [->|Hs].
    + rewrite <- units_add in Hb |- *. apply fix_repr; lia.
    + destruct (N.eqb_spec i1 i2) as [Hi|Hi].
      * rewrite Hi, (units_neg m s1 s2 i2 x Hs).
        replace (- units m s2 i2 x + units m s2 i2 x)
          with (units m false 0 x) by (rewrite units_zero; lia).
        apply fix_repr; try lia. rewrite units_zero. by apply Z.pow_pos_nonneg.
      * destruct (N.ltb_spec i1 i2) as [Hlt|Hge].
        -- assert (units m s1 i1 x + units m s2 i2 x = units m s2 (i2 - i1) x)
             as Hsum.
           { rewrite units_sub by lia. rewrite (units_neg m s1 s2 i1 x Hs). lia. }
           rewrite Hsum in Hb |- *. apply fix_repr; lia.
        -- assert (units m s1 i1 x + units m s2 i2 x = units m s1 (i1 - i2) x)
             as Hsum.
           { rewrite units_sub by lia.
             rewrite (units_neg m s2 s1 i2 x) by congruence. lia. }
           rewrite Hsum in Hb |- *. apply fix_repr; lia.
Qed.
End DecimalFacts.

(** ** Sums that stay within the context *)

Section total_price.
Import Decimal DecimalFacts.

Lemma abs_line_units m item : Z.abs (line_units m item) = abs_units m item.
Proof.
  unfold line_units, abs_units.
  destruct (of_string (Item.price item)) as [[s c e| |]|]; try done.
  by rewrite Z.abs_mul, units_abs.
Qed.

Lemma abs_units_nonneg m item : 0 ≤ abs_units m item.
Proof. rewrite <- abs_line_units. lia. Qed.

Lemma sum_abs_units_nonneg m items :
  0 ≤ foldr (λ item acc, abs_units m item + acc) 0 items.
Proof.
  induction items as [|item items IH]; simpl; [done|].
  pose proof (abs_units_nonneg m item). lia.
Qed.

Lemma line_total_repr m item :
  Etiny ≤ m → m ≤ 0 → price_fits m item = true →
  abs_units m item < 10 ^ 28 →
  ∃ d, line_total item = Ok d ∧ repr m (line_units m item) d.
Proof.
  intros Hm1 Hm2 Hfit Hb. rewrite <- abs_line_units in Hb.
  unfold line_total, Decimal_new, price_fits, line_units in *.
  destruct (of_string (Item.price item)) as [[s c e| |]|]; try done.
  apply Z.leb_le in Hfit. simpl. by apply mul_repr.
Qed.

Lemma sum_line_totals_repr m items : ∀ acc v,
  Etiny ≤ m → m ≤ 0 → forallb (price_fits m) items = true →
  repr m v acc →
  Z.abs v + foldr (λ item acc, abs_units m item + acc) 0 items < 10 ^ 28 →
  ∃ d, sum_line_totals (PyDecimal acc) items = Ok (PyDecimal d) ∧
       repr m (v + foldr (λ item acc, line_units m item + acc) 0 items) d.
Proof.
  induction items as [|item items IH]; intros acc v Hm1 Hm2 Hfit Hacc Hb.
  - simpl. exists acc. split; [done|]. by rewrite Z.add_0_r.
  - simpl in Hfit, Hb |- *. apply andb_true_iff in Hfit as [Hfit Hfits].
    pose proof (abs_units_nonneg m item) as Hnn.
    pose proof (sum_abs_units_nonneg m items) as Hsn.
    pose proof (abs_line_units m item) as Habs.
    destruct (line_total_repr m item Hm1 Hm2 Hfit ltac:(lia)) as (x & -> & Hx).
    simpl.
    destruct (add_repr m v (line_units m item) acc x Hm1 Hm2 Hacc Hx
                ltac:(lia) ltac:(lia) ltac:(lia)) as (d & -> & Hd).
    simpl.
    destruct (IH d (v + line_units m item) Hm1 Hm2 Hfits Hd ltac:(lia))
      as (d' & -> & Hd').
    exists d'. split; [done|].
    by rewrite Z.add_assoc.
Qed.

Lemma of_int_0_repr m : m ≤ 0 → repr m 0 (of_int 0).
Proof.
  intros Hm. exists false, 0%N, 0. split; [done|]. split; [done|].
  apply units_zero.
Qed.

(** Under [fits_context], the sum is computed without rounding. *)
Lemma sum_from_zero_repr m items :
  fits_context m items = true →
  ∃ r, sum_line_totals (PyInt 0) items = Ok r ∧
       match r with
       | PyInt n => items = [] ∧ n = 0
       | PyDecimal d =>
           repr m (foldr (λ item acc, line_units m item + acc) 0 items) d
       end.
Proof.
  unfold fits_context. rewrite !andb_true_iff.
  intros [[[Hm1%Z.leb_le Hm2%Z.leb_le] Hfit] Hb%Z.ltb_lt].
  destruct items as [|item items].
  - by exists (PyInt 0).
  - simpl in Hfit, Hb |- *. apply andb_true_iff in Hfit as [Hfit Hfits].
    pose proof (abs_units_nonneg m item) as Hnn.
    pose proof (sum_abs_units_nonneg m items) as Hsn.
    pose proof (abs_line_units m item) as Habs.
    destruct (line_total_repr m item Hm1 Hm2 Hfit ltac:(lia)) as (x & -> & Hx).
    simpl.
    destruct (add_repr m (line_units m item) 0 x (of_int 0) Hm1 Hm2 Hx
                (of_int_0_repr m Hm2) ltac:(lia) ltac:(simpl; lia) ltac:(lia))
      as (d & -> & Hd).
    simpl.
    destruct (sum_line_totals_repr m items d (line_units m item + 0)
                Hm1 Hm2 Hfits Hd ltac:(lia)) as (d' & -> & Hd').
    exists (PyDecimal d'). split; [done|].
    by rewrite Z.add_0_r in Hd'.
Qed.
End total_price.

Section total_price_Q.
Import Decimal DecimalFacts.
Local Open Scope Q_scope.

Lemma ten_neq_0 : ¬ (10 # 1) == 0.
Proof. unfold Qeq. simpl. lia. Qed.

Lemma Qpower10_split (e m : Z) :
  (10 # 1) ^ e == (10 # 1) ^ (e - m) * (10 # 1) ^ m.
Proof.
  rewrite <- Qpower_plus by apply ten_neq_0.
  replace (e - m + m)%Z with e by lia. reflexivity.
Qed.

Lemma repr_to_Q m v d :
  repr m v d → to_Q d == inject_Z v * (10 # 1) ^ m.
Proof.
  intros (s & c & e & -> & Hme & <-). unfold to_Q, units.
  rewrite (Qpower10_split e m), !inject_Z_mult.
  rewrite (Zpower_Qpower 10 (e - m)) by lia.
  change (inject_Z 10) with (10 # 1).
  destruct s; unfold sgn.
  - rewrite inject_Z_opp. change (inject_Z (-1)) with (- (1)). ring.
  - change (inject_Z 1) with 1. ring.
Qed.

Lemma exact_total_units m items :
  forallb (price_fits m) items = true →
  exact_total items
  == inject_Z (foldr (λ item acc, line_units m item + acc)%Z 0%Z items)
     * (10 # 1) ^ m.
Proof.
  induction items as [|item items IH]; intros Hfit.
  - simpl. change (inject_Z 0) with 0. ring.
  - simpl in Hfit |- *. apply andb_true_iff in Hfit as [Hfit Hfits].
    rewrite (IH Hfits), inject_Z_plus.
    unfold price_Q, price_fits, line_units in *.
    destruct (of_string (Item.price item)) as [[s c e| |]|]; try done.
    apply Z.leb_le in Hfit.
    rewrite (repr_to_Q m (units m s c e) (Finite s c e))
      by (by eexists _, _, _).
    rewrite inject_Z_mult. ring.
Qed.
End total_price_Q.

Lemma fits_line_total m items item :
  fits_context m items = true → item ∈ items → ∃ t, line_total item = Ok t.
Proof.
  unfold fits_context. rewrite !andb_true_iff.
  intros [[[Hm1%Z.leb_le Hm2%Z.leb_le] Hfit] Hb%Z.ltb_lt] Hin.
  assert (price_fits m item = true ∧ abs_units m item < 10 ^ 28) as [Hp Ha].
  { induction items as [|i items IH]; [by apply elem_of_nil in Hin|].
    simpl in Hfit, Hb. apply andb_true_iff in Hfit as [Hfit Hfits].
    pose proof (abs_units_nonneg m i). pose proof (sum_abs_units_nonneg m items).
    apply elem_of_cons in Hin as [->|Hin].
    - split; [done | lia].
    - apply IH; [done | lia | done]. }
  destruct (line_total_repr m item Hm1 Hm2 Hp Ha) as (d & Hd & _). by exists d.
Qed.

(** ** The exceptions of the decimal operations *)

Lemma fix_raises d e : Decimal._fix d = Raise e → decimal_signal e.
Proof.
  unfold Decimal._fix. intros H. right.
  repeat case_match; simplify_eq; done.
Qed.

Lemma add_raises a b e : Decimal.add a b = Raise e → decimal_signal e.
Proof.
  unfold Decimal.add, Decimal.check_nans. intros H.
  repeat case_match; simplify_eq;
    try (by left); try (by eapply fix_raises).
Qed.

Lemma mul_raises a b e : Decimal.mul a b = Raise e → decimal_signal e.
Proof.
  unfold Decimal.mul, Decimal.check_nans. intros H.
  repeat case_match; simplify_eq;
    try (by left); try (by eapply fix_raises).
Qed.

Lemma line_total_raises item e : line_total item = Raise e → decimal_signal e.
Proof.
  unfold line_total, Decimal_new. intros H.
  destruct (Decimal.of_string (Item.price item)); simpl in H.
  - by eapply mul_raises.
  - injection H as <-. by left.
Qed.

Lemma sum_line_totals_raises items : ∀ acc e,
  sum_line_totals acc items = Raise e → decimal_signal e.
Proof.
  induction items as [|item items IH]; intros acc e H; simpl in H; [done|].
  destruct (line_total item) as [x|e'] eqn:Hx; simpl in H.
  - destruct (number_add acc x) as [y|e'] eqn:Hy; simpl in H.
    + by eapply IH.
    + injection H as <-. unfold number_add in Hy.
      destruct acc; by eapply add_raises.
  - injection H as <-. by eapply line_total_raises.
Qed.

Lemma iter_items_raises lookup items e :
  (iter_items lookup items).2 = Some e → decimal_signal e.
Proof.
  induction items as [|[k item] items IH]; simpl; [done|].
  unfold enrich. destruct (dict_get k lookup) as [p|]; [|done].
  pose proof (line_total_raises item) as Hl. unfold line_total in Hl.
  destruct (Decimal_new (Item.price item)) as [price|e'] eqn:Hp; simpl in *.
  - destruct (Decimal.mul price _) as [t|e'] eqn:Ht; simpl in *.
    + destruct (iter_items lookup items). simpl in *. done.
    + intros [= <-]. by apply Hl.
  - intros [= <-]. by apply Hl.
Qed.

(** ** The lookup table and the loop of [__iter__] *)

Section lookup_facts.
Lemma foldl_lookup_Some k p ps acc :
  dict_get k (foldl lookup_step acc ps) = Some p →
  (p ∈ ps ∧ str (Product.id p) = k) ∨ dict_get k acc = Some p.
Proof.
  revert acc. induction ps as [|p0 ps IH]; intros acc; simpl; [by right|].
  intros [[Hin Hk]|Hacc]%IH.
  - left. split; [by apply elem_of_cons; right | done].
  - unfold lookup_step in Hacc.
    destruct (decide (k = str (Product.id p0))) as [->|Hne].
    + rewrite dict_get_setitem_eq in Hacc. injection Hacc as ->.
      left. split; [by apply elem_of_cons; left | done].
    + rewrite dict_get_setitem_ne in Hacc by done. by right.
Qed.

Lemma foldl_lookup_mono k ps acc :
  is_Some (dict_get k acc) → is_Some (dict_get k (foldl lookup_step acc ps)).
Proof.
  revert acc. induction ps as [|p0 ps IH]; intros acc; simpl; [done|].
  intros Hacc. apply IH. unfold lookup_step.
  destruct (decide (k = str (Product.id p0))) as [->|Hne].
  - rewrite dict_get_setitem_eq. by eexists.
  - by rewrite dict_get_setitem_ne.
Qed.

Lemma foldl_lookup_is_Some k ps acc :
  Exists (λ p, str (Product.id p) = k) ps →
  is_Some (dict_get k (foldl lookup_step acc ps)).
Proof.
  intros Hex. revert acc.
  induction Hex as [p0 ps Hk|p0 ps Hex IH]; intros acc; simpl.
  - apply foldl_lookup_mono. unfold lookup_step. rewrite Hk, dict_get_setitem_eq.
    by eexists.
  - apply IH.
Qed.

(** What the lookup table of [__iter__] holds. *)
Lemma product_lookup_Some objects ids k p :
  dict_get k (product_lookup (filter_id_in objects ids)) = Some p →
  p ∈ objects ∧ str (Product.id p) = k.
Proof.
  unfold product_lookup. intros [[Hin Hk]|Hnil]%foldl_lookup_Some; [|done].
  split; [|done]. unfold filter_id_in in Hin.
  by apply list_elem_of_filter in Hin as [_ Hin].
Qed.

Lemma product_lookup_is_Some objects ids k :
  k ∈ ids →
  is_Some (dict_get k (product_lookup (filter_id_in objects ids)))
  ↔ in_catalog objects k.
Proof.
  intros Hk. unfold in_catalog. split.
  - intros [p [Hin Hp]%product_lookup_Some]. apply Exists_exists. eauto.
  - intros (p & Hin & Hp)%Exists_exists.
    apply foldl_lookup_is_Some, Exists_exists. exists p. split; [|done].
    unfold filter_id_in. apply list_elem_of_filter. split; [|done].
    by rewrite Hp.
Qed.
End lookup_facts.

(** The generator's loop, when no catalogued line item raises. *)
Lemma iter_items_complete objects lookup (items : dict Item.t) :
  (∀ k p, dict_get k lookup = Some p → p ∈ objects ∧ str (Product.id p) = k) →
  (∀ kv, kv ∈ items → is_Some (dict_get kv.1 lookup) ↔ in_catalog objects kv.1) →
  (∀ kv, kv ∈ items → in_catalog objects kv.1 → ∃ t, line_total kv.2 = Ok t) →
  ∃ xs,
    iter_items lookup items = (xs, None) ∧
    Forall2 (enriches objects) (filter (λ kv, in_catalog objects kv.1) items) xs.
Proof.
  intros Hlookup. induction items as [|[k item] items IH]; intros Hcat Hok.
  - exists []. split; [done|]. constructor.
  - destruct IH as (xs & Hxs & Hall).
    { intros kv Hkv. apply Hcat. by apply elem_of_cons; right. }
    { intros kv Hkv. apply Hok. by apply elem_of_cons; right. }
    simpl. unfold enrich.
    pose proof (Hcat (k, item) ltac:(by apply elem_of_cons; left)) as Hk.
    simpl in Hk.
    destruct (dict_get k lookup) as [p|] eqn:Hget.
    + assert (in_catalog objects k) as Hin by (apply Hk; by eexists).
      destruct (Hok (k, item) ltac:(by apply elem_of_cons; left) Hin) as [t Ht].
      unfold line_total, Decimal_new in Ht. simpl in Ht.
      unfold Decimal_new.
      destruct (Decimal.of_string (Item.price item)) as [price|] eqn:Hprice;
        [|discriminate Ht].
      simpl in *. rewrite Ht. simpl. rewrite Hxs.
      eexists. split; [done|].
      rewrite filter_cons_True by done. constructor; [|done].
      destruct (Hlookup k p Hget) as [Hp Hid].
      repeat split; simpl; done.
    + assert (¬ in_catalog objects k) as Hnin.
      { intros Hin%Hk. by destruct Hin. }
      rewrite Hxs. exists xs. split; [done|].
      by rewrite filter_cons_False.
Qed.

(** [__iter__] when no catalogued line item raises. *)
Lemma iter_complete objects self st :
  (∀ kv, kv ∈ deref st (cart self) → in_catalog objects kv.1 →
         ∃ t, line_total kv.2 = Ok t) →
  ∃ xs,
    __iter__ objects self st = (xs, None) ∧
    Forall2 (enriches objects)
      (filter (λ kv, in_catalog objects kv.1) (deref st (cart self))) xs.
Proof.
  intros Hok. unfold __iter__. apply iter_items_complete; [| |done].
  - intros k p. apply product_lookup_Some.
  - intros [k item] Hkv. apply product_lookup_is_Some.
    unfold dict_keys. apply list_elem_of_fmap. by exists (k, item).
Qed.


(** ** The claims *)

(** C1: when product [p] is already in the cart with stored price [s], a
    further [add] of [p] succeeds and leaves the stored price equal to [s],
    whatever the product's current price, the quantity and the override
    flag.  On a new cart, [add(p, price=10)] then [add(p, price=99)] keeps
    the price string ["10"] and the total is 10 × 2 = 20. *)
Theorem add_keeps_price_snapshot self product quantity override_quantity st :
  (∀ item,
     dict_get (str (Product.id product)) (deref st (cart self)) = Some item →
     ∃ st' item',
       add self product quantity override_quantity st = Ok st' ∧
       dict_get (str (Product.id product)) (deref st' (cart self)) = Some item' ∧
       Item.price item' = Item.price item) ∧
  (let ops := [λ c, add c (Examples.product 7 "10") 1 false;
               λ c, add c (Examples.product 7 "99") 1 false] in
   Examples.observe (Examples.item_of "7") (Examples.after ops)
     = Ok (Some {| Item.quantity := 2; Item.price := "10" |}) ∧
   Examples.observe get_total_price (Examples.after ops)
     = Ok (Ok (PyDecimal (Decimal.Finite false 20 0)))).
Proof.
  split; [|split; vm_compute; reflexivity].
  intros item Hget. eexists _, _. split; [apply add_eq|].
  rewrite deref_save, deref_store_eq, dict_get_setitem_eq, Hget. done.
Qed.

Lemma add_keeps_price_snapshot_witness :
  dict_get (str 1) (deref Examples.state_AB (cart Examples.cart_AB))
    = Some {| Item.quantity := 2; Item.price := "5.00" |} ∧
  ∃ st' item',
    add Examples.cart_AB (Examples.product 1 "9.99") 3 false Examples.state_AB = Ok st' ∧
    dict_get (str 1) (deref st' (cart Examples.cart_AB)) = Some item' ∧
    Item.price item' = "5.00".
Proof.
  split; [vm_compute; reflexivity|].
  apply (proj1 (add_keeps_price_snapshot Examples.cart_AB
                  (Examples.product 1 "9.99") 3 false Examples.state_AB)
           {| Item.quantity := 2; Item.price := "5.00" |}).
  vm_compute; reflexivity.
Defined.

(** C2: [add] succeeds in every state.  When the product is absent it
    creates the line item with the product's price (as a string) and the
    given quantity, with or without override; when it is present with
    quantity [q], the new quantity is [quantity] under override and
    [q + quantity] otherwise.  [add(p, 2); add(p, 3)] gives 5 and
    [add(p, 2); add(p, 5, override_quantity=True)] gives 5. *)
Theorem add_sets_quantity self product quantity override_quantity st :
  (∃ st',
      add self product quantity override_quantity st = Ok st' ∧
      dict_get (str (Product.id product)) (deref st' (cart self)) =
        Some (match dict_get (str (Product.id product)) (deref st (cart self)) with
              | None =>
                  {| Item.quantity := quantity;
                     Item.price := Decimal.to_string (Product.price product) |}
              | Some item =>
                  {| Item.quantity :=
                       if override_quantity then quantity
                       else Item.quantity item + quantity;
                     Item.price := Item.price item |}
              end)) ∧
  Examples.observe (Examples.item_of "7")
    (Examples.after [λ c, add c (Examples.product 7 "1.50") 2 false;
                     λ c, add c (Examples.product 7 "1.50") 3 false])
    = Ok (Some {| Item.quantity := 5; Item.price := "1.50" |}) ∧
  Examples.observe (Examples.item_of "7")
    (Examples.after [λ c, add c (Examples.product 7 "1.50") 2 false;
                     λ c, add c (Examples.product 7 "1.50") 5 true])
    = Ok (Some {| Item.quantity := 5; Item.price := "1.50" |}).
Proof.
  split; [|split; vm_compute; reflexivity].
  eexists. split; [apply add_eq|].
  by rewrite deref_save, deref_store_eq, dict_get_setitem_eq.
Qed.

(** C3 as stated fails: every price of this cart parses as a decimal, yet
    the sum is rounded to the 28 digits of the context and the cent is
    lost. *)
Lemma get_total_price_rounds :
  let items := dict_values (deref Examples.state_big
                              (cart Examples.cart_big)) in
  Forall (λ item, is_Some (Decimal.of_string (Item.price item))) items ∧
  get_total_price Examples.cart_big Examples.state_big
    = Ok (PyDecimal (Decimal.Finite false 1000000000000000000000000000 1)) ∧
  ¬ (number_Q (PyDecimal (Decimal.Finite false 1000000000000000000000000000 1))
     == exact_total items)%Q.
Proof.
  split; [|split].
  - repeat constructor; vm_compute; by eexists.
  - vm_compute. reflexivity.
  - vm_compute. discriminate.
Qed.

(** C3, amended: when the stored prices parse as finite decimals, which
    includes that they are within the limits of the implementation, and the
    cart fits the 28-digit context (for a unit [10^m], [Etiny ≤ m ≤ 0], not
    above any price's exponent, the absolute line totals add up to less than
    [10^28] units), [get_total_price] returns a finite number equal to the
    sum over all line items of price × quantity in exact rational
    arithmetic.  On the empty cart it returns the integer 0, and on
    [{A: quantity 2, price 5.00; B: quantity 1, price 3.50}] exactly
    13.50. *)
Theorem get_total_price_exact self st :
  (∀ m,
     fits_context m (dict_values (deref st (cart self))) = true →
     ∃ r, get_total_price self st = Ok r ∧
          number_is_finite r = true ∧
          (number_Q r == exact_total (dict_values (deref st (cart self))))%Q) ∧
  get_total_price self (store (cart self) [] st) = Ok (PyInt 0) ∧
  get_total_price Examples.cart_AB Examples.state_AB
    = Ok (PyDecimal (Decimal.Finite false 1350 (-2))).
Proof.
  split; [|split].
  - intros m Hfit. unfold get_total_price.
    destruct (sum_from_zero_repr m _ Hfit) as (r & -> & Hr).
    exists r. split; [done|].
    assert (forallb (price_fits m) (dict_values (deref st (cart self))) = true)
      as Hfits.
    { unfold fits_context in Hfit. rewrite !andb_true_iff in Hfit. tauto. }
    destruct r as [n|d].
    + destruct Hr as [-> ->]. split; [done|]. reflexivity.
    + split.
      * by destruct Hr as (s & c & e & -> & _).
      * simpl. rewrite (repr_to_Q m _ d Hr).
        by rewrite (exact_total_units m _ Hfits).
  - unfold get_total_price. by rewrite deref_store_eq.
  - vm_compute. reflexivity.
Qed.

Lemma get_total_price_exact_witness :
  fits_context (-2) (dict_values (deref Examples.state_AB (cart Examples.cart_AB)))
    = true ∧
  ∃ r, get_total_price Examples.cart_AB Examples.state_AB = Ok r ∧
       number_is_finite r = true ∧
       (number_Q r
        == exact_total (dict_values (deref Examples.state_AB (cart Examples.cart_AB))))%Q.
Proof.
  split; [vm_compute; reflexivity|].
  apply (proj1 (get_total_price_exact Examples.cart_AB Examples.state_AB) (-2)).
  vm_compute; reflexivity.
Defined.

(** A price text beyond the limits of the implementation is no decimal,
    even with a zero coefficient: the largest exponent of a zero is
    [MAX_EMAX] and the smallest exponent is [MIN_ETINY].  A cart that holds
    such a text fits the context for no unit, and [get_total_price] and the
    iteration raise [decimal.InvalidOperation] on it. *)
Lemma price_beyond_limits_raises :
  let items := dict_values (deref Examples.state_beyond (cart Examples.cart_AB)) in
  Decimal.of_string "0E+999999999999999999"
    = Some (Decimal.Finite false 0 999999999999999999) ∧
  Decimal.of_string "0E+1000000000000000000" = None ∧
  Decimal.of_string "1E+1000000000000000000" = None ∧
  Decimal.of_string "1E-1999999999999999997"
    = Some (Decimal.Finite false 1 (-1999999999999999997)) ∧
  Decimal.of_string "1E-1999999999999999998" = None ∧
  (∀ m, fits_context m items = false) ∧
  get_total_price Examples.cart_AB Examples.state_beyond = Raise InvalidOperation ∧
  __iter__ [Examples.product 1 "1"] Examples.cart_AB Examples.state_beyond
    = ([], Some InvalidOperation).
Proof.
  intros items.
  assert (Decimal.of_string "0E+1000000000000000000" = None) as Hnone
    by (vm_compute; reflexivity).
  repeat split; try (vm_compute; reflexivity).
  intros m. unfold fits_context.
  assert (forallb (price_fits m) items = false) as ->.
  { unfold items. change (dict_values _)
      with [{| Item.quantity := 1; Item.price := "0E+1000000000000000000" |}].
    cbn [forallb]. unfold price_fits. cbn [Item.price]. by rewrite Hnone. }
  by rewrite andb_false_r.
Qed.

(** C4: [__len__] returns the sum of the quantities of all line items, 0
    on an empty cart; on [{A: quantity 2, B: quantity 1}] it is 3 while the
    mapping has 2 keys. *)
Theorem len_is_total_quantity self st :
  __len__ self st = total_quantity (deref st (cart self)) ∧
  __len__ self (store (cart self) [] st) = 0 ∧
  __len__ Examples.cart_AB Examples.state_AB = 3 ∧
  length (deref Examples.state_AB (cart Examples.cart_AB)) = 2%nat.
Proof.
  split; [|split; [|split; vm_compute; reflexivity]].
  - unfold __len__. rewrite foldl_add_quantities. lia.
  - unfold __len__. by rewrite deref_store_eq.
Qed.

(** C5 as stated fails: the line item of this cart is found in the
    catalog, yet the generator raises [decimal.Overflow] before yielding
    its record.  A price string that is no decimal stops the iteration in
    the same way, with [decimal.InvalidOperation]. *)
Lemma iter_raises_on_catalogued_item :
  let objects := [Examples.product_huge] in
  let d := deref Examples.state_huge (cart Examples.cart_new) in
  d = [("1", {| Item.quantity := 10; Item.price := "1E+999999" |})] ∧
  in_catalog objects "1" ∧
  __iter__ objects Examples.cart_new Examples.state_huge = ([], Some Overflow) ∧
  (¬ ∃ xs,
      __iter__ objects Examples.cart_new Examples.state_huge = (xs, None) ∧
      Forall2 (enriches objects) (filter (λ kv, in_catalog objects kv.1) d) xs) ∧
  __iter__ objects Examples.cart_AB Examples.state_malformed
    = ([], Some InvalidOperation).
Proof.
  assert (__iter__ [Examples.product_huge] Examples.cart_new
            Examples.state_huge = ([], Some Overflow)) as Hraise
    by (vm_compute; reflexivity).
  split; [vm_compute; reflexivity|]. split; [|split; [exact Hraise|split]].
  - apply Exists_cons_hd. vm_compute. reflexivity.
  - intros (xs & Hiter & _). rewrite Hraise in Hiter. discriminate Hiter.
  - vm_compute. reflexivity.
Qed.

(** C5, amended: when the price of every line item found in the catalog
    converts to a decimal and multiplies with the quantity without a
    trapped signal, [__iter__] ends normally after yielding, in the order
    of the mapping, exactly one record per line item whose id is found in
    the catalog: the stored quantity, the stored price as a decimal,
    [total_price] their product, and the catalog's record.  Line items
    whose id is not in the catalog are left out; the generator reads the
    state only.  With only B (now priced 3.75) left in the catalog, the
    cart [{A: quantity 2, price 5.00; B: quantity 1, price 3.50}] yields
    the one record of B, at the stored price 3.50, and A is still in the
    mapping. *)
Theorem iter_yields_catalogued_items objects self st :
  ((∀ kv, kv ∈ deref st (cart self) → in_catalog objects kv.1 →
          ∃ t, line_total kv.2 = Ok t) →
   ∃ xs,
     __iter__ objects self st = (xs, None) ∧
     Forall2 (enriches objects)
       (filter (λ kv, in_catalog objects kv.1) (deref st (cart self))) xs) ∧
  (let B := Examples.product 2 "3.75" in
   __iter__ [B] Examples.cart_AB Examples.state_AB
     = ([{| Enriched.quantity := 1;
            Enriched.price := Decimal.Finite false 350 (-2);
            Enriched.product := B;
            Enriched.total_price := Decimal.Finite false 350 (-2) |}], None) ∧
   Examples.item_of "1" Examples.cart_AB Examples.state_AB
     = Some {| Item.quantity := 2; Item.price := "5.00" |}).
Proof.
  split; [apply iter_complete|].
  split; vm_compute; reflexivity.
Qed.

Lemma iter_yields_catalogued_items_witness :
  let objects := [Examples.product 2 "3.75"] in
  (∀ kv, kv ∈ deref Examples.state_AB (cart Examples.cart_AB) →
         in_catalog objects kv.1 → ∃ t, line_total kv.2 = Ok t) ∧
  ∃ xs,
    __iter__ objects Examples.cart_AB Examples.state_AB = (xs, None) ∧
    Forall2 (enriches objects)
      (filter (λ kv, in_catalog objects kv.1)
         (deref Examples.state_AB (cart Examples.cart_AB))) xs.
Proof.
  intros objects.
  assert (∀ kv, kv ∈ deref Examples.state_AB (cart Examples.cart_AB) →
                in_catalog objects kv.1 → ∃ t, line_total kv.2 = Ok t) as Hok.
  { intros kv Hkv _.
    change (deref Examples.state_AB (cart Examples.cart_AB))
      with [("1", {| Item.quantity := 2; Item.price := "5.00" |});
            ("2", {| Item.quantity := 1; Item.price := "3.50" |})] in Hkv.
    apply elem_of_cons in Hkv as [->|Hkv];
      [|apply elem_of_cons in Hkv as [->|Hkv]; [|by apply elem_of_nil in Hkv]];
      eexists; vm_compute; reflexivity. }
  split; [exact Hok|].
  exact (proj1 (iter_yields_catalogued_items objects Examples.cart_AB
                  Examples.state_AB) Hok).
Defined.

(** C6: [remove] never raises.  When the product is in the cart its line
    item is deleted, the other line items and the session's mapping are
    kept, and the session is marked modified; when it is absent the state,
    flag included, is unchanged. *)
Theorem remove_present_or_absent self product st :
  dict_wf (deref st (cart self)) →
  ∃ st',
    remove self product st = Ok st' ∧
    match dict_get (str (Product.id product)) (deref st (cart self)) with
    | Some _ =>
        dict_get (str (Product.id product)) (deref st' (cart self)) = None ∧
        (∀ k, k ≠ str (Product.id product) →
           dict_get k (deref st' (cart self)) = dict_get k (deref st (cart self))) ∧
        modified (session st') = true ∧
        data (session st') = data (session st)
    | None => st' = st
    end.
Proof.
  intros Hwf. unfold remove, dict_pop.
  destruct (dict_get (str (Product.id product)) (deref st (cart self)))
    as [item|] eqn:Hget.
  - assert (dict_contains (str (Product.id product)) (deref st (cart self)) = true) as ->.
    { apply dict_contains_true. by rewrite Hget. }
    simpl. eexists. split; [done|].
    rewrite deref_save, deref_store_eq. repeat split.
    + by apply dict_get_remove_eq.
    + intros k Hk. by apply dict_get_remove_ne.
  - assert (dict_contains (str (Product.id product)) (deref st (cart self)) = false) as ->.
    { by apply dict_contains_false. }
    by eexists.
Qed.

Lemma remove_present_or_absent_witness :
  dict_wf (deref Examples.state_AB (cart Examples.cart_AB)) ∧
  ∃ st',
    remove Examples.cart_AB (Examples.product 1 "5.00") Examples.state_AB = Ok st' ∧
    match dict_get (str 1) (deref Examples.state_AB (cart Examples.cart_AB)) with
    | Some _ =>
        dict_get (str 1) (deref st' (cart Examples.cart_AB)) = None ∧
        (∀ k, k ≠ str 1 →
           dict_get k (deref st' (cart Examples.cart_AB))
             = dict_get k (deref Examples.state_AB (cart Examples.cart_AB))) ∧
        modified (session st') = true ∧
        data (session st') = data (session Examples.state_AB)
    | None => st' = Examples.state_AB
    end.
Proof.
  assert (dict_wf (deref Examples.state_AB (cart Examples.cart_AB))) as Hwf.
  { unfold dict_wf. vm_compute. apply NoDup_cons. split.
    - intros [H|H]%elem_of_cons; [discriminate H | by apply elem_of_nil in H].
    - apply NoDup_singleton. }
  split; [exact Hwf|].
  exact (remove_present_or_absent Examples.cart_AB (Examples.product 1 "5.00")
           Examples.state_AB Hwf).
Defined.

(** C7: [clear] never raises.  When the session has the cart key, the key
    is deleted from the session, the session is marked modified, and no
    mapping is emptied: the heap, with the instance's own mapping, is as
    before.  When the key is absent the state is unchanged. *)
Theorem clear_deletes_key CART_SESSION_ID self st :
  ∃ st',
    clear CART_SESSION_ID self st = Ok st' ∧
    match data (session st) !! CART_SESSION_ID with
    | Some _ =>
        data (session st') = delete CART_SESSION_ID (data (session st)) ∧
        session_contains CART_SESSION_ID st' = false ∧
        modified (session st') = true ∧
        heap st' = heap st ∧
        deref st' (cart self) = deref st (cart self)
    | None => st' = st
    end.
Proof. apply clear_effect. Qed.

(** C8: [add] sets the session's [modified] flag and touches nothing but
    the product's own line item: the other keys of the instance's mapping
    keep their items (so do other products, ids being printed injectively),
    the other objects of the heap and the session's mapping are as before,
    so a session key that referred to the instance's mapping still refers to
    it and shows the line item. *)
Theorem add_frame self product quantity override_quantity st :
  ∃ st',
    add self product quantity override_quantity st = Ok st' ∧
    modified (session st') = true ∧
    (∀ k, k ≠ str (Product.id product) →
       dict_get k (deref st' (cart self)) = dict_get k (deref st (cart self))) ∧
    (∀ other : Product.t, Product.id other ≠ Product.id product →
       dict_get (str (Product.id other)) (deref st' (cart self))
         = dict_get (str (Product.id other)) (deref st (cart self))) ∧
    (∀ l, l ≠ cart self → heap st' !! l = heap st !! l) ∧
    data (session st') = data (session st) ∧
    (∀ key, session_get key st = SRef (cart self) →
       session_get key st' = SRef (cart self) ∧
       is_Some (dict_get (str (Product.id product)) (deref st' (cart self)))).
Proof.
  eexists. split; [apply add_eq|]. simpl.
  assert (∀ k, k ≠ str (Product.id product) →
    dict_get k (deref (save (store (cart self)
      (dict_setitem (str (Product.id product))
         (added_item (dict_get (str (Product.id product)) (deref st (cart self)))
            product quantity override_quantity) (deref st (cart self))) st)) (cart self))
    = dict_get k (deref st (cart self))) as Hframe.
  { intros k Hk. rewrite deref_save, deref_store_eq.
    by apply dict_get_setitem_ne. }
  repeat split.
  - exact Hframe.
  - intros other Hne. apply Hframe. unfold str. intros Heq.
    apply Hne. by apply (inj pretty).
  - intros l Hl. by rewrite lookup_insert_ne.
  - done.
  - rewrite deref_save, deref_store_eq. by rewrite dict_get_setitem_eq.
Qed.

(** C9 as stated fails: this state is reached by one [add], its only price
    string parses as a finite decimal, and [get_total_price] raises
    [decimal.Overflow]; so does the iteration. *)
Lemma get_total_price_overflows :
  reachable "cart" Examples.cart_new Examples.state_huge ∧
  deref Examples.state_huge (cart Examples.cart_new)
    = [("1", {| Item.quantity := 10; Item.price := "1E+999999" |})] ∧
  Decimal.of_string "1E+999999" = Some (Decimal.Finite false 1 999999) ∧
  get_total_price Examples.cart_new Examples.state_huge = Raise Overflow ∧
  __iter__ [Examples.product_huge] Examples.cart_new Examples.state_huge
    = ([], Some Overflow).
Proof.
  split; [|repeat split; vm_compute; reflexivity].
  apply (reachable_add "cart" _ (__init__ "cart" Examples.empty_state).2
           Examples.product_huge 10 false); [apply reachable_init|].
  vm_compute. reflexivity.
Qed.

(** C9, amended: in every state, zero and negative quantities included,
    [add], [remove] and [clear] complete without raising and [__len__]
    returns the sum of the quantities; the builtin [len] raises [ValueError]
    when that sum is negative, [OverflowError] when it is above [2^63 - 1],
    and returns it otherwise.  [get_total_price] and the iteration raise
    nothing but the decimal signals [InvalidOperation] and [Overflow], and
    complete without raising when the stored prices parse as finite
    decimals, within the limits of the implementation, and the cart fits
    the 28-digit context. *)
Theorem operations_complete CART_SESSION_ID objects self product quantity
    override_quantity st :
  (∃ st', add self product quantity override_quantity st = Ok st') ∧
  (∃ st', remove self product st = Ok st') ∧
  (∃ st', clear CART_SESSION_ID self st = Ok st') ∧
  len self st =
    (if __len__ self st <? 0 then Raise ValueError
     else if 2 ^ 63 - 1 <? __len__ self st then Raise OverflowError
     else Ok (total_quantity (deref st (cart self)))) ∧
  (∀ e, get_total_price self st = Raise e → decimal_signal e) ∧
  (∀ e, (__iter__ objects self st).2 = Some e → decimal_signal e) ∧
  (∀ m, fits_context m (dict_values (deref st (cart self))) = true →
        (∃ r, get_total_price self st = Ok r) ∧
        (∃ xs, __iter__ objects self st = (xs, None))).
Proof.
  split; [eexists; apply add_eq|].
  split; [apply remove_ok|].
  split.
  { destruct (clear_effect CART_SESSION_ID self st) as (st' & Hclear & _).
    by exists st'. }
  split.
  { unfold len. repeat case_match; try done.
    unfold __len__. rewrite foldl_add_quantities. by rewrite Z.add_0_l. }
  split; [intros e; apply sum_line_totals_raises|].
  split; [intros e; apply iter_items_raises|].
  intros m Hfit. split.
  - destruct (sum_from_zero_repr m _ Hfit) as (r & Hr & _). by exists r.
  - destruct (iter_complete objects self st) as (xs & Hxs & _); [|by exists xs].
    intros [k item] Hkv _. apply (fits_line_total m _ item Hfit).
    unfold dict_values. apply list_elem_of_fmap. by exists (k, item).
Qed.

Lemma operations_complete_witness :
  fits_context (-2) (dict_values (deref Examples.state_AB (cart Examples.cart_AB)))
    = true ∧
  (∃ r, get_total_price Examples.cart_AB Examples.state_AB = Ok r) ∧
  (∃ xs, __iter__ [Examples.product 2 "3.75"] Examples.cart_AB Examples.state_AB
         = (xs, None)).
Proof.
  split; [vm_compute; reflexivity|].
  destruct (operations_complete "cart" [Examples.product 2 "3.75"]
              Examples.cart_AB (Examples.product 2 "3.75") (-4) false
              Examples.state_AB) as (_ & _ & _ & _ & _ & _ & Hfits).
  apply (Hfits (-2)). vm_compute; reflexivity.
Defined.

(** With a negative total quantity, reached by [add(p, quantity=-1)] on a
    new cart, [__len__] returns -1 and the builtin [len] raises. *)
Lemma len_negative_raises :
  let ops := [λ c, add c (Examples.product 7 "1.50") (-1) false] in
  Examples.observe __len__ (Examples.after ops) = Ok (-1) ∧
  Examples.observe len (Examples.after ops) = Ok (Raise ValueError).
Proof. split; vm_compute; reflexivity. Qed.

(** With a total quantity above [2^63 - 1], reached by
    [add(p, quantity=2**63)] on a new cart, [__len__] returns it and the
    builtin [len] raises [OverflowError]. *)
Lemma len_too_large_raises :
  let ops := [λ c, add c (Examples.product 7 "1.50") (2 ^ 63) false] in
  Examples.observe __len__ (Examples.after ops) = Ok (2 ^ 63) ∧
  Examples.observe len (Examples.after ops) = Ok (Raise OverflowError).
Proof. split; vm_compute; reflexivity. Qed.

(** C10: [clear] leaves the instance's own mapping as it was, no longer
    referred to by the session.  A further [add] on the same instance
    succeeds, marks the session modified and writes the line item into that
    mapping only; the session still has no cart key, so a [Cart] built from
    the session afterwards gets a new, empty mapping. *)
Theorem add_after_clear_is_detached CART_SESSION_ID self product quantity
    override_quantity st :
  ∃ st1 st2,
    clear CART_SESSION_ID self st = Ok st1 ∧
    deref st1 (cart self) = deref st (cart self) ∧
    add self product quantity override_quantity st1 = Ok st2 ∧
    session_contains CART_SESSION_ID st2 = false ∧
    modified (session st2) = true ∧
    is_Some (dict_get (str (Product.id product)) (deref st2 (cart self))) ∧
    (∀ l, l ≠ cart self → heap st2 !! l = heap st !! l) ∧
    cart (__init__ CART_SESSION_ID st2).1 ≠ cart self ∧
    deref (__init__ CART_SESSION_ID st2).2 (cart (__init__ CART_SESSION_ID st2).1) = [].
Proof.
  destruct (clear_effect CART_SESSION_ID self st) as (st1 & Hclear & Hst1).
  exists st1. eexists. split; [exact Hclear|].
  assert (data (session st1) !! CART_SESSION_ID = None ∧ heap st1 = heap st)
    as [Hnone Hheap].
  { destruct (data (session st) !! CART_SESSION_ID) eqn:Hkey.
    - destruct Hst1 as (-> & _ & _ & -> & _). by rewrite lookup_delete_eq.
    - by subst st1. }
  split; [unfold deref; by rewrite Hheap|]. split; [apply add_eq|].
  set (st2 := save (store _ _ st1)).
  assert (data (session st2) !! CART_SESSION_ID = None) as Hnone2 by exact Hnone.
  assert (session_get CART_SESSION_ID st2 = SNone) as Hget.
  { unfold session_get. by rewrite Hnone2. }
  assert (cart self ∈ dom (heap st2)) as Hdom.
  { subst st2; simpl. rewrite dom_insert_L. set_solver. }
  repeat split.
  - apply bool_decide_eq_false_2. rewrite Hnone2. by intros [? ?].
  - subst st2. rewrite deref_save, deref_store_eq, dict_get_setitem_eq. by eexists.
  - intros l Hl. subst st2; simpl. by rewrite lookup_insert_ne, Hheap.
  - unfold __init__, _get_or_create_cart. rewrite Hget. simpl.
    intros Heq. rewrite <- Heq in Hdom. by apply is_fresh in Hdom.
  - unfold __init__, _get_or_create_cart. rewrite Hget. simpl.
    unfold deref; simpl. by rewrite lookup_insert_eq.
Qed.

(** ** Printing a decimal and reading it back *)

Module RoundTrip.
Import Decimal DecimalText.

Lemma chars_app (s1 s2 : string) :
  list_ascii_of_string (s1 +:+ s2) = list_ascii_of_string s1 ++ list_ascii_of_string s2.
Proof. induction s1 as [|a s1 IH]; simpl; [done|]. by rewrite IH. Qed.

Lemma chars_length (s : string) :
  String.length s = length (list_ascii_of_string s).
Proof. induction s as [|a s IH]; simpl; [done|]. by rewrite IH. Qed.

Lemma chars_substring (n m : nat) (s : string) :
  list_ascii_of_string (substring n m s) = take m (drop n (list_ascii_of_string s)).
Proof.
  revert n m. induction s as [|a s IH]; intros n m.
  - destruct n, m; done.
  - destruct n as [|n]; simpl.
    + destruct m as [|m]; simpl; [done|]. by rewrite (IH 0%nat m), drop_0.
    + apply IH.
Qed.

Lemma chars_zeros n :
  list_ascii_of_string (zeros n) = replicate (Z.to_nat n) "0"%char.
Proof. unfold zeros. apply list_ascii_of_string_of_list_ascii. Qed.

Lemma pretty_N_char_digit k : (k < 10)%N →
  digit (pretty_N_char k) ∧ digit_val (pretty_N_char k) = k.
Proof.
  intros Hk.
  assert (k = 0 ∨ k = 1 ∨ k = 2 ∨ k = 3 ∨ k = 4 ∨ k = 5 ∨ k = 6 ∨ k = 7
          ∨ k = 8 ∨ k = 9)%N as Hc by lia.
  repeat destruct Hc as [->|Hc]; try subst k; by compute.
Qed.

Lemma int_of_digits_snoc ds a :
  int_of_digits (ds ++ [a]) = (int_of_digits ds * 10 + digit_val a)%N.
Proof. unfold int_of_digits. by rewrite foldl_app. Qed.

Lemma pretty_N_go_chars x : ∀ s, ∃ ds,
  list_ascii_of_string (pretty_N_go x s) = ds ++ list_ascii_of_string s ∧
  Forall digit ds ∧ int_of_digits ds = x ∧ ((0 < x)%N → ds ≠ []).
Proof.
  induction (N.lt_wf_0 x) as [x _ IH]; intros s.
  destruct (N.eq_dec x 0%N) as [->|Hx].
  - exists []. rewrite pretty_N_go_0. repeat split; [constructor | lia].
  - rewrite pretty_N_go_step by lia.
    destruct (IH (x `div` 10)%N ltac:(apply N.div_lt; lia)
                (String (pretty_N_char (x `mod` 10)) s)) as (ds & Hds & Hall & Hint & _).
    destruct (pretty_N_char_digit (x `mod` 10)%N ltac:(apply N.mod_lt; lia))
      as [Hd Hv].
    exists (ds ++ [pretty_N_char (x `mod` 10)]). repeat split.
    + rewrite Hds. simpl. by rewrite <- app_assoc.
    + apply Forall_app. split; [done|]. by constructor.
    + rewrite int_of_digits_snoc, Hint, Hv.
      pose proof (N.div_mod x 10 ltac:(lia)). lia.
    + intros _. by destruct ds.
Qed.

(** The digits of [n], as [str(n)] prints them. *)
Lemma pretty_N_chars (n : N) : ∃ ds,
  list_ascii_of_string (pretty n) = ds ∧
  Forall digit ds ∧ int_of_digits ds = n ∧ ds ≠ [].
Proof.
  unfold pretty, pretty_N. destruct (decide (n = 0%N)) as [->|Hn].
  - exists ["0"%char]. repeat split; try done. by repeat constructor.
  - destruct (pretty_N_go_chars n "") as (ds & Hds & Hall & Hint & Hne).
    exists ds. simpl in Hds. rewrite app_nil_r in Hds.
    repeat split; try done. apply Hne. lia.
Qed.

Lemma span_digits_app ds rest :
  Forall digit ds → stops rest → span_digits (ds ++ rest) = (ds, rest).
Proof.
  intros Hds Hrest. induction Hds as [|a ds Ha _ IH]; cbn [app span_digits].
  - destruct rest as [|a rest]; [done|]. cbn [stops span_digits] in *.
    by rewrite Hrest.
  - unfold digit in Ha. by rewrite Ha, IH.
Qed.

Lemma span_digits_all ds : Forall digit ds → span_digits ds = (ds, []).
Proof.
  intros Hds. rewrite <- (app_nil_r ds) at 1. by apply span_digits_app.
Qed.

Lemma int_of_digits_zeros n ds :
  int_of_digits (replicate n "0"%char ++ ds) = int_of_digits ds.
Proof.
  unfold int_of_digits. rewrite foldl_app. f_equal.
  induction n as [|n IH]; simpl; [done|]. exact IH.
Qed.

Lemma digit_plain a : digit a → plain a ∧ lower a = a.
Proof.
  unfold digit, plain. destruct a as [[] [] [] [] [] [] [] []];
    try discriminate; intros _; by compute.
Qed.

Lemma lstrip_plain l : Forall (λ a, is_space a = false) l → lstrip l = l.
Proof. intros [|a l' Ha _]; simpl; [done|]. by rewrite Ha. Qed.

Lemma strip_plain l : Forall (λ a, is_space a = false) l → strip l = l.
Proof.
  intros Hl. unfold strip. rewrite (lstrip_plain l Hl).
  rewrite lstrip_plain by (by apply Forall_reverse).
  apply reverse_involutive.
Qed.

Lemma filter_plain l :
  Forall (λ a, a ≠ "_"%char) l → filter (λ a, a ≠ "_"%char) l = l.
Proof.
  induction 1 as [|a l Ha _ IH]; [done|].
  rewrite filter_cons_True by done. by rewrite IH.
Qed.

Lemma lower_plain l : Forall (λ a, lower a = a) l → lower <$> l = l.
Proof.
  induction 1 as [|a l Ha _ IH]; [done|]. rewrite fmap_cons, IH. by f_equal.
Qed.

(** What [of_string] does to printable text. *)
Lemma of_string_plain (value : string) l :
  list_ascii_of_string value = l → Forall plain l →
  of_string value =
    let '(sign, s) :=
      match lower <$> l with
      | "-"%char :: r => (true, r)
      | "+"%char :: r => (false, r)
      | _ => (false, lower <$> l)
      end in
    match parse_number sign s with
    | Some d => exact d
    | None => parse_special sign s ≫= exact
    end.
Proof.
  intros Hl Hplain. unfold of_string. rewrite Hl.
  rewrite strip_plain by (eapply Forall_impl; [done | by intros ? (? & _)]).
  rewrite filter_plain by (eapply Forall_impl; [done | by intros ? (_ & ?)]).
  done.
Qed.

Lemma parse_exponent_chars e : parse_exponent (exp_chars e) = Some e.
Proof.
  unfold exp_chars. destruct (Z.eqb_spec e 0) as [->|He]; [done|].
  destruct (pretty_N_chars (Z.abs_N e)) as (ds & -> & Hall & Hint & Hne).
  destruct ds as [|d ds]; [done|].
  destruct (Z.ltb_spec e 0); cbn [parse_exponent];
    rewrite (span_digits_all _ Hall), Hint; f_equal; lia.
Qed.

Lemma exp_chars_stops e : stops (exp_chars e).
Proof. unfold exp_chars. by destruct (e =? 0). Qed.

Lemma exp_chars_cases e :
  exp_chars e = [] ∨ ∃ r, exp_chars e = "e"%char :: r.
Proof. unfold exp_chars. destruct (e =? 0); eauto. Qed.

Lemma parse_number_int sign ip e :
  Forall digit ip → ip ≠ [] →
  parse_number sign (ip ++ exp_chars e)
  = Some (Finite sign (int_of_digits ip) e).
Proof.
  intros Hip Hne. unfold parse_number.
  rewrite (span_digits_app ip _ Hip (exp_chars_stops e)).
  pose proof (parse_exponent_chars e) as Hexp.
  destruct (exp_chars_cases e) as [Hr|[r Hr]]; rewrite Hr in *;
    cbv beta iota zeta; rewrite Hexp; destruct ip; try done;
    rewrite app_nil_r; do 2 f_equal; simpl; lia.
Qed.

Lemma parse_number_frac sign ip fp e :
  Forall digit ip → ip ≠ [] → Forall digit fp →
  parse_number sign (ip ++ "."%char :: fp ++ exp_chars e)
  = Some (Finite sign (int_of_digits (ip ++ fp)) (e - Z.of_nat (length fp))).
Proof.
  intros Hip Hne Hfp. unfold parse_number.
  rewrite (span_digits_app ip _ Hip) by done.
  cbv beta iota zeta.
  rewrite (span_digits_app fp _ Hfp (exp_chars_stops e)).
  rewrite parse_exponent_chars. by destruct ip.
Qed.

Lemma lower_digits ds : Forall digit ds → lower <$> ds = ds.
Proof.
  intros H. apply lower_plain. eapply Forall_impl; [done|].
  intros a Ha. by apply digit_plain.
Qed.

Lemma plain_digits ds : Forall digit ds → Forall plain ds.
Proof.
  intros H. eapply Forall_impl; [done|]. intros a Ha. by apply digit_plain.
Qed.

Lemma exp_upper_lower e : lower <$> exp_upper e = exp_chars e.
Proof.
  unfold exp_upper, exp_chars. destruct (e =? 0); [done|].
  destruct (pretty_N_chars (Z.abs_N e)) as (ds & -> & Hall & _).
  rewrite !fmap_cons, (lower_digits _ Hall). by destruct (e <? 0).
Qed.

Lemma exp_upper_plain e : Forall plain (exp_upper e).
Proof.
  unfold exp_upper. destruct (e =? 0); [constructor|].
  destruct (pretty_N_chars (Z.abs_N e)) as (ds & -> & Hall & _).
  constructor; [by compute|]. constructor; [by destruct (e <? 0); compute|].
  by apply plain_digits.
Qed.

Lemma exp_upper_chars e :
  list_ascii_of_string
    (if e =? 0 then ""
     else "E" +:+ (if e <? 0 then "-" else "+") +:+ pretty (Z.abs_N e))
  = exp_upper e.
Proof.
  unfold exp_upper. destruct (e =? 0); [done|].
  rewrite !chars_app. by destruct (e <? 0).
Qed.

(** The text of a finite decimal: sign, integer digits, an optional
    fraction, an optional exponent. *)
Lemma to_string_finite_chars sign coeff exp : ∃ ip tail e,
  list_ascii_of_string (to_string (Finite sign coeff exp))
  = (if sign then ["-"%char] else []) ++ ip ++ tail ++ exp_upper e ∧
  Forall digit ip ∧ ip ≠ [] ∧
  ((tail = [] ∧ int_of_digits ip = coeff ∧ e = exp) ∨
   (∃ fp, tail = "."%char :: fp ∧ Forall digit fp ∧
          int_of_digits (ip ++ fp) = coeff ∧ e - Z.of_nat (length fp) = exp)).
Proof.
  destruct (pretty_N_chars coeff) as (ds & Hds & Hall & Hint & Hne).
  assert (String.length (pretty coeff) = length ds) as Hlen
    by (by rewrite chars_length, Hds).
  assert (0 < Z.of_nat (length ds)) as Hpos by (destruct ds; simpl; [done | lia]).
  unfold to_string. rewrite Hlen.
  set (len := Z.of_nat (length ds)) in *.
  set (dotplace := if (exp <=? 0) && (-6 <? exp + len) then exp + len else 1).
  assert (∀ (p : string * string) (x : string),
    list_ascii_of_string ((if sign then "-" else "") +:+ p.1 +:+ p.2 +:+ x)
    = (if sign then ["-"%char] else []) ++ list_ascii_of_string p.1
        ++ list_ascii_of_string p.2 ++ list_ascii_of_string x) as Hshape.
  { intros p x. rewrite !chars_app. by destruct sign. }
  assert (∀ (p : string * string) (x : string),
    (let '(intpart, fracpart) := p in
     (if sign then "-" else "") +:+ intpart +:+ fracpart +:+ x)
    = (if sign then "-" else "") +:+ p.1 +:+ p.2 +:+ x) as Hlet
    by (by intros [??] ?).
  rewrite Hlet, Hshape, exp_upper_chars. clear Hlet Hshape.
  destruct (Z.leb_spec dotplace 0) as [Hd0|Hd0]; cbn [fst snd].
  - (* 0.000ddd *)
    assert (dotplace = exp + len ∧ exp ≤ 0) as [Hdp He].
    { subst dotplace. destruct (Z.leb_spec exp 0), (Z.ltb_spec (-6) (exp + len));
        simpl in *; lia. }
    exists ["0"%char], ("."%char :: replicate (Z.to_nat (- dotplace)) "0"%char ++ ds),
      (exp + len - dotplace).
    split; [|split; [by repeat constructor|split; [done|right]]].
    + rewrite !chars_app, chars_zeros, Hds. simpl. by rewrite <- ?app_assoc.
    + eexists. split; [done|]. split; [|split].
      * apply Forall_app. split; [|done]. by apply Forall_replicate.
      * etrans; [apply (int_of_digits_zeros 1)|]. by rewrite int_of_digits_zeros.
      * rewrite length_app, length_replicate. lia.
  - destruct (Z.leb_spec len dotplace) as [Hd1|Hd1]; cbn [fst snd].
    + (* ddd or dE+n *)
      exists ds, [], (exp + len - dotplace).
      split; [|split; [done|split; [done|left]]].
      * rewrite chars_app, chars_zeros, Hds. simpl.
        replace (Z.to_nat (dotplace - len)) with 0%nat; [by rewrite app_nil_r|].
        subst dotplace. destruct (Z.leb_spec exp 0), (Z.ltb_spec (-6) (exp + len));
          simpl in *; lia.
      * split; [done|split; [done|]].
        subst dotplace. destruct (Z.leb_spec exp 0), (Z.ltb_spec (-6) (exp + len));
          simpl in *; lia.
    + (* dd.ddd or d.dddE+n *)
      exists (take (Z.to_nat dotplace) ds), ("."%char :: drop (Z.to_nat dotplace) ds),
        (exp + len - dotplace).
      split; [|split; [by apply Forall_take|split; [|right]]].
      * rewrite chars_app, !chars_substring, Hds. simpl. rewrite drop_0.
        rewrite (take_ge (drop _ _)); [done|]. rewrite length_drop. lia.
      * destruct ds; [done|]. destruct (Z.to_nat dotplace) eqn:E; [lia|done].
      * eexists. split; [done|]. split; [by apply Forall_drop|].
        rewrite take_drop. split; [done|]. rewrite length_drop. lia.
Qed.

Lemma sign_split_digit a r :
  digit a →
  match a :: r with
  | "-"%char :: r' => (true, r')
  | "+"%char :: r' => (false, r')
  | _ => (false, a :: r)
  end = (false, a :: r).
Proof.
  unfold digit. destruct a as [[] [] [] [] [] [] [] []]; try discriminate; done.
Qed.

Lemma of_string_to_string_finite sign coeff exp :
  of_string (to_string (Finite sign coeff exp)) = exact (Finite sign coeff exp).
Proof.
  destruct (to_string_finite_chars sign coeff exp)
    as (ip & tail & e & Hchars & Hip & Hne & Htail).
  assert (Forall plain (ip ++ tail ++ exp_upper e)) as Hplain.
  { apply Forall_app. split; [by apply plain_digits|].
    apply Forall_app. split; [|apply exp_upper_plain].
    destruct Htail as [(-> & _)|(fp & -> & Hfp & _)]; [constructor|].
    constructor; [by compute | by apply plain_digits]. }
  assert (lower <$> (ip ++ tail ++ exp_upper e)
          = ip ++ tail ++ exp_chars e) as Hlower.
  { rewrite !fmap_app, exp_upper_lower, (lower_digits ip Hip).
    destruct Htail as [(-> & _)|(fp & -> & Hfp & _)]; [done|].
    by rewrite fmap_cons, (lower_digits fp Hfp). }
  assert (parse_number sign (ip ++ tail ++ exp_chars e)
          = Some (Finite sign coeff exp)) as Hparse.
  { destruct Htail as [(-> & <- & <-)|(fp & -> & Hfp & <- & <-)].
    - by apply parse_number_int.
    - by apply parse_number_frac. }
  rewrite (of_string_plain _ _ Hchars).
  - rewrite fmap_app, Hlower. destruct sign; cbn [fmap list_fmap app].
    + change (lower "-"%char) with "-"%char. cbv beta iota zeta. by rewrite Hparse.
    + destruct ip as [|a ip]; [done|]. cbn [app].
      rewrite sign_split_digit by (by inversion Hip). cbn [app] in Hparse.
      by rewrite Hparse.
  - apply Forall_app. split; [|done]. destruct sign; repeat constructor; by compute.
Qed.

Lemma parse_special_nan sign signaling ds :
  Forall digit ds →
  parse_special sign
    ((if signaling : bool then ["s"%char] else [])
       ++ "n"%char :: "a"%char :: "n"%char :: ds)
  = Some (NaN sign signaling (int_of_digits ds)).
Proof.
  intros Hds. unfold parse_special, starts_with.
  destruct signaling; cbn [app].
  - rewrite !decide_False by discriminate. cbv beta iota zeta.
    cbn [list_ascii_of_string length take drop].
    rewrite decide_True by done. by rewrite drop_0, (span_digits_all ds Hds).
  - rewrite !decide_False by discriminate. cbv beta iota zeta.
    cbn [list_ascii_of_string length take drop].
    rewrite decide_True by done. by rewrite drop_0, (span_digits_all ds Hds).
Qed.

Lemma parse_number_nan sign signaling ds :
  parse_number sign
    ((if signaling : bool then ["s"%char] else [])
       ++ "n"%char :: "a"%char :: "n"%char :: ds) = None.
Proof. by destruct signaling. Qed.

Lemma of_string_to_string_nan sign signaling payload :
  of_string (to_string (NaN sign signaling payload))
  = exact (NaN sign signaling payload).
Proof.
  assert (∃ ds, list_ascii_of_string
                  (if decide (payload = 0%N) then "" else pretty payload) = ds ∧
                Forall digit ds ∧ int_of_digits ds = payload)
    as (ds & Hds & Hall & Hint).
  { destruct (decide (payload = 0%N)) as [->|Hp].
    - exists []. by repeat split.
    - destruct (pretty_N_chars payload) as (ds & ? & ? & ? & _). by exists ds. }
  erewrite (of_string_plain _
    ((if sign then ["-"%char] else [])
       ++ (if signaling then ["s"%char] else [])
       ++ "N"%char :: "a"%char :: "N"%char :: ds)).
  - rewrite !fmap_app, fmap_cons, !fmap_cons, (lower_digits ds Hall).
    pose proof (parse_number_nan sign signaling ds) as Hnum.
    pose proof (parse_special_nan sign signaling ds Hall) as Hspec.
    destruct sign, signaling; cbn [fmap list_fmap app] in *;
      change (lower "-"%char) with "-"%char;
      change (lower "s"%char) with "s"%char;
      change (lower "N"%char) with "n"%char;
      change (lower "a"%char) with "a"%char;
      cbv beta iota zeta; rewrite ?Hnum, Hspec, Hint; done.
  - unfold to_string. rewrite !chars_app, Hds. by destruct sign, signaling.
  - apply Forall_app. split; [destruct sign; repeat constructor; by compute|].
    apply Forall_app. split; [destruct signaling; repeat constructor; by compute|].
    repeat (constructor; [by compute|]). by apply plain_digits.
Qed.

(** Reading the text of a decimal gives the decimal, when the
    implementation holds it. *)
Lemma of_string_to_string_exact d : of_string (to_string d) = exact d.
Proof.
  destruct d as [sign coeff exp|sign|sign signaling payload].
  - apply of_string_to_string_finite.
  - by destruct sign; vm_compute.
  - apply of_string_to_string_nan.
Qed.

Lemma of_string_to_string d :
  in_limits d = true → of_string (to_string d) = Some d.
Proof. intros H. rewrite of_string_to_string_exact. unfold exact. by rewrite H. Qed.

(** The text of a decimal is never read as another decimal. *)
Lemma of_string_to_string_inv d d' :
  of_string (to_string d) = Some d' → d' = d.
Proof.
  rewrite of_string_to_string_exact. unfold exact.
  destruct (in_limits d); [by intros [= ->] | done].
Qed.
End RoundTrip.

(** ** More facts about dicts *)

Section dict_more.
Context {V : Type}.
Implicit Types (d : dict V) (k : string) (v : V).

Lemma dict_setitem_setitem k v w d :
  dict_setitem k w (dict_setitem k v d) = dict_setitem k w d.
Proof.
  induction d as [|[k0 v0] d IH]; simpl.
  - by rewrite decide_True.
  - destruct (decide (k = k0)) as [->|Hne]; simpl.
    + by rewrite decide_True.
    + rewrite decide_False by done. by rewrite IH.
Qed.

Lemma dict_setitem_same k v d : dict_get k d = Some v → dict_setitem k v d = d.
Proof.
  induction d as [|[k0 v0] d IH]; simpl; [done|].
  destruct (decide (k = k0)) as [->|Hne].
  - by intros [= ->].
  - intros H. by rewrite IH.
Qed.

Lemma dict_keys_setitem k v d :
  dict_keys (dict_setitem k v d) =
    match dict_get k d with
    | Some _ => dict_keys d
    | None => dict_keys d ++ [k]
    end.
Proof.
  unfold dict_keys. induction d as [|[k0 v0] d IH]; csimpl; [done|].
  destruct (decide (k = k0)) as [->|Hne]; csimpl; [done|].
  rewrite IH. by destruct (dict_get k d).
Qed.

Lemma dict_remove_setitem_absent k v d :
  dict_get k d = None → dict_remove k (dict_setitem k v d) = d.
Proof.
  induction d as [|[k0 v0] d IH]; simpl.
  - by rewrite decide_True.
  - destruct (decide (k = k0)) as [->|Hne]; [done|]. simpl.
    rewrite decide_False by done. intros H. by rewrite IH.
Qed.

Lemma dict_remove_absent k d : dict_get k d = None → dict_remove k d = d.
Proof.
  induction d as [|[k0 v0] d IH]; simpl; [done|].
  destruct (decide (k = k0)) as [->|Hne]; [done|]. intros H. by rewrite IH.
Qed.

Lemma filter_Forall_id {A} (P : A → Prop) `{!∀ x, Decision (P x)} (l : list A) :
  Forall P l → filter P l = l.
Proof.
  induction 1 as [|a l Ha _ IH]; [done|].
  rewrite filter_cons_True by done. by rewrite IH.
Qed.

Lemma dict_keys_remove k d :
  dict_wf d → dict_keys (dict_remove k d) = filter (λ k', k' ≠ k) (dict_keys d).
Proof.
  unfold dict_wf, dict_keys. induction d as [|[k0 v0] d IH]; csimpl; [done|].
  intros [Hnin Hnd]%NoDup_cons.
  destruct (decide (k = k0)) as [->|Hne]; csimpl.
  - rewrite filter_cons_False by (by intros ?).
    symmetry. apply filter_Forall_id. apply Forall_forall.
    intros k' Hk' ->. done.
  - rewrite filter_cons_True by done. by rewrite IH.
Qed.

Lemma dict_length_remove k v d :
  dict_get k d = Some v → S (length (dict_remove k d)) = length d.
Proof.
  induction d as [|[k0 v0] d IH]; simpl; [done|].
  destruct (decide (k = k0)) as [->|Hne]; [done|]. simpl. intros H.
  by rewrite IH.
Qed.

Lemma dict_get_elem_wf k v d : dict_wf d → (k, v) ∈ d → dict_get k d = Some v.
Proof.
  unfold dict_wf, dict_keys. induction d as [|[k0 v0] d IH]; csimpl.
  - by intros _ ?%elem_of_nil.
  - intros [Hnin Hnd]%NoDup_cons [[= -> ->]|Hin]%elem_of_cons.
    + by rewrite decide_True.
    + destruct (decide (k = k0)) as [->|Hne]; [|by apply IH].
      destruct Hnin. apply list_elem_of_fmap. by exists (k0, v).
Qed.

Lemma dict_get_elem k v d : dict_get k d = Some v → (k, v) ∈ d.
Proof.
  induction d as [|[k' v'] d IH]; simpl; [done|].
  destruct (decide (k = k')) as [->|]; intros H.
  - injection H as ->. apply elem_of_cons. by left.
  - apply elem_of_cons. right. by apply IH.
Qed.
End dict_more.

Lemma total_quantity_setitem k (v : Item.t) d :
  total_quantity (dict_setitem k v d)
  = total_quantity d + Item.quantity v
    - match dict_get k d with Some old => Item.quantity old | None => 0 end.
Proof.
  induction d as [|[k0 v0] d IH]; simpl; [lia|].
  destruct (decide (k = k0)) as [->|Hne]; simpl; [lia|]. rewrite IH. lia.
Qed.

Lemma total_quantity_remove k (v : Item.t) d :
  dict_get k d = Some v →
  total_quantity (dict_remove k d) = total_quantity d - Item.quantity v.
Proof.
  induction d as [|[k0 v0] d IH]; simpl; [done|].
  destruct (decide (k = k0)) as [->|Hne].
  - intros [= ->]. lia.
  - intros H. simpl. rewrite (IH H). lia.
Qed.

Lemma len_total_quantity self st :
  __len__ self st = total_quantity (deref st (cart self)).
Proof. unfold __len__. rewrite foldl_add_quantities. lia. Qed.

Lemma save_store_twice l d1 d2 st :
  save (store l d2 (save (store l d1 st))) = save (store l d2 st).
Proof. unfold save, store. simpl. by rewrite insert_insert_eq. Qed.

Lemma remove_eq self product st :
  let k := str (Product.id product) in
  let d := deref st (cart self) in
  remove self product st =
    Ok (match dict_get k d with
        | Some _ => save (store (cart self) (dict_remove k d) st)
        | None => st
        end).
Proof.
  intros k d. unfold remove, dict_pop. fold k d.
  destruct (dict_get k d) as [item|] eqn:Hget.
  - assert (dict_contains k d = true) as ->.
    { apply dict_contains_true. by rewrite Hget. }
    done.
  - assert (dict_contains k d = false) as -> by (by apply dict_contains_false).
    done.
Qed.

(** ** Further properties of the cart *)

Lemma init_fresh CART_SESSION_ID st :
  session_get CART_SESSION_ID st = SNone →
  __init__ CART_SESSION_ID st =
    ({| cart := fresh (dom (heap st)) |},
     session_setitem CART_SESSION_ID (SRef (fresh (dom (heap st))))
       (store (fresh (dom (heap st))) [] st)).
Proof. intros H. unfold __init__, _get_or_create_cart. by rewrite H. Qed.

Lemma init_existing CART_SESSION_ID st l :
  session_get CART_SESSION_ID st = SRef l →
  __init__ CART_SESSION_ID st = ({| cart := l |}, st).
Proof. intros H. unfold __init__, _get_or_create_cart. by rewrite H. Qed.

Lemma init_attached CART_SESSION_ID st :
  session_get CART_SESSION_ID (__init__ CART_SESSION_ID st).2
  = SRef (cart (__init__ CART_SESSION_ID st).1).
Proof.
  destruct (session_get CART_SESSION_ID st) as [|l] eqn:Hget.
  - rewrite (init_fresh _ _ Hget). unfold session_get. simpl.
    by rewrite lookup_insert_eq.
  - by rewrite (init_existing _ _ _ Hget).
Qed.

(** X1. [Cart.__init__] on a session that holds no cart (the key is absent or
    maps to None) allocates a fresh empty dict, stores it in the session under
    CART_SESSION_ID and binds it to [self.cart]; nothing else in the session or
    among the existing objects changes, and the new cart has length 0, total
    price [sum([])] = 0 and yields nothing on iteration. *)
Theorem init_creates_empty_cart CART_SESSION_ID st :
  session_get CART_SESSION_ID st = SNone →
  let self := (__init__ CART_SESSION_ID st).1 in
  let st' := (__init__ CART_SESSION_ID st).2 in
  ((deref st' (cart self) = []) ∧
   session_get CART_SESSION_ID st' = SRef (cart self) ∧
   (cart self ∉ dom (heap st)) ∧
   (∀ l, l ≠ cart self → heap st' !! l = heap st !! l) ∧
   (∀ k, k ≠ CART_SESSION_ID → data (session st') !! k = data (session st) !! k) ∧
   __len__ self st' = 0 ∧
   get_total_price self st' = Ok (PyInt 0) ∧
   (∀ objects, __iter__ objects self st' = ([], None))).
Proof.
  intros Hget self st'.
  assert (deref st' (cart self) = []) as Hempty.
  { subst self st'. rewrite (init_fresh _ _ Hget). unfold deref. simpl.
    by rewrite lookup_insert_eq. }
  split; [done|]. split; [apply init_attached|].
  subst self st'. rewrite (init_fresh _ _ Hget) in *. simpl in *.
  split; [apply is_fresh|].
  split; [intros l Hl; by rewrite lookup_insert_ne|].
  split; [intros k Hk; by rewrite lookup_insert_ne|].
  unfold __len__, get_total_price, __iter__. simpl. by rewrite Hempty.
Qed.

Lemma init_creates_empty_cart_witness :
  session_get "cart" Examples.empty_state = SNone ∧
  deref (__init__ "cart" Examples.empty_state).2
    (cart (__init__ "cart" Examples.empty_state).1) = [].
Proof.
  split; [vm_compute; reflexivity|].
  apply (init_creates_empty_cart "cart" Examples.empty_state).
  vm_compute; reflexivity.
Defined.

(** X2. Building a second [Cart] from the same session gives the same mapping
    object and leaves the session untouched; so an [add] made through the
    first instance is seen by an instance built afterwards. *)
Theorem cart_instances_share_mapping CART_SESSION_ID st product quantity
    override_quantity :
  let c1 := (__init__ CART_SESSION_ID st).1 in
  let st1 := (__init__ CART_SESSION_ID st).2 in
  (__init__ CART_SESSION_ID st1 = (c1, st1) ∧
   ∃ st2,
     add c1 product quantity override_quantity st1 = Ok st2 ∧
     __init__ CART_SESSION_ID st2 = (c1, st2) ∧
     is_Some (dict_get (str (Product.id product))
                (deref st2 (cart (__init__ CART_SESSION_ID st2).1)))).
Proof.
  intros c1 st1.
  pose proof (init_attached CART_SESSION_ID st) as Hatt. fold c1 st1 in Hatt.
  assert (∀ s, session_get CART_SESSION_ID s = SRef (cart c1) →
               __init__ CART_SESSION_ID s = (c1, s)) as Hinit.
  { intros s Hs. rewrite (init_existing _ _ _ Hs). by destruct c1. }
  split; [by apply Hinit|].
  eexists. split; [apply add_eq|].
  set (st2 := save _).
  assert (__init__ CART_SESSION_ID st2 = (c1, st2)) as H2 by (by apply Hinit).
  split; [done|]. rewrite H2. simpl. subst st2.
  rewrite deref_save, deref_store_eq, dict_get_setitem_eq. by eexists.
Qed.

(** X3. Invariant of every state reached from an empty session by [__init__],
    [add], [remove] and [clear]: either the session still holds a reference to
    the very dict of [self.cart] (and a new [Cart] would attach to it), or
    the session has no cart key at all. *)
Theorem reachable_attached_or_cleared CART_SESSION_ID self st :
  reachable CART_SESSION_ID self st →
  (session_get CART_SESSION_ID st = SRef (cart self) ∧
   __init__ CART_SESSION_ID st = (self, st)) ∨
  session_contains CART_SESSION_ID st = false.
Proof.
  assert (∀ c s, session_get CART_SESSION_ID s = SRef (cart c) →
                 __init__ CART_SESSION_ID s = (c, s)) as Hinit.
  { intros c s Hs. rewrite (init_existing _ _ _ Hs). by destruct c. }
  assert (∀ c s, session_get CART_SESSION_ID s = SRef (cart c) →
    (session_get CART_SESSION_ID s = SRef (cart c) ∧
     __init__ CART_SESSION_ID s = (c, s)) ∨
    session_contains CART_SESSION_ID s = false) as Hleft by (left; auto).
  induction 1 as [|self st product quantity override_quantity st' _ IH Hadd
                  |self st product st' _ IH Hrem
                  |self st st' _ IH Hclear].
  - apply Hleft, init_attached.
  - rewrite add_eq in Hadd. injection Hadd as <-.
    destruct IH as [[Hs _]|Hc]; [by apply Hleft | by right].
  - rewrite remove_eq in Hrem. injection Hrem as <-.
    destruct (dict_get _ _); [|done].
    destruct IH as [[Hs _]|Hc]; [by apply Hleft | by right].
  - destruct (clear_effect CART_SESSION_ID self st) as (st1 & Hst1 & Heff).
    rewrite Hst1 in Hclear. injection Hclear as <-.
    destruct (data (session st) !! CART_SESSION_ID) eqn:Hkey.
    + right. by destruct Heff as (_ & ? & _).
    + by subst st1.
Qed.

Lemma reachable_attached_or_cleared_witness :
  reachable "cart" Examples.cart_new Examples.state_huge ∧
  ((session_get "cart" Examples.state_huge = SRef (cart Examples.cart_new) ∧
    __init__ "cart" Examples.state_huge = (Examples.cart_new, Examples.state_huge)) ∨
   session_contains "cart" Examples.state_huge = false).
Proof.
  assert (reachable "cart" Examples.cart_new Examples.state_huge) as Hr.
  { apply (reachable_add "cart" _ (__init__ "cart" Examples.empty_state).2
             Examples.product_huge 10 false); [apply reachable_init|].
    vm_compute. reflexivity. }
  split; [exact Hr|].
  exact (reachable_attached_or_cleared "cart" _ _ Hr).
Defined.

(** X4. [add] always succeeds and keeps the insertion order of the cart's
    keys: a product already present stays at its position, a new one goes
    to the end. *)
Theorem add_keeps_insertion_order self product quantity override_quantity st :
  ∃ st',
    add self product quantity override_quantity st = Ok st' ∧
    dict_keys (deref st' (cart self)) =
      match dict_get (str (Product.id product)) (deref st (cart self)) with
      | Some _ => dict_keys (deref st (cart self))
      | None => dict_keys (deref st (cart self)) ++ [str (Product.id product)]
      end.
Proof.
  eexists. split; [apply add_eq|].
  by rewrite deref_save, deref_store_eq, dict_keys_setitem.
Qed.

(** X5. The effect of [add] on [__len__]: a new product or an increment
    raises the length by [quantity]; an override replaces the old quantity
    of that line by [quantity]. *)
Theorem len_after_add self product quantity override_quantity st :
  ∃ st',
    add self product quantity override_quantity st = Ok st' ∧
    __len__ self st' =
      match dict_get (str (Product.id product)) (deref st (cart self)) with
      | Some item =>
          if override_quantity then __len__ self st - Item.quantity item + quantity
          else __len__ self st + quantity
      | None => __len__ self st + quantity
      end.
Proof.
  eexists. split; [apply add_eq|].
  rewrite !len_total_quantity, deref_save, deref_store_eq, total_quantity_setitem.
  destruct (dict_get _ _) as [item|]; simpl; [|lia].
  destruct override_quantity; lia.
Qed.

(** X17. [add] with [override_quantity=True] is idempotent: repeating the
    same call leaves the state as the first call made it. *)
Theorem add_override_idempotent self product quantity st :
  ∃ st',
    add self product quantity true st = Ok st' ∧
    add self product quantity true st' = Ok st'.
Proof.
  eexists. split; [apply add_eq|]. rewrite add_eq.
  rewrite deref_save, deref_store_eq, dict_get_setitem_eq.
  rewrite dict_setitem_setitem, save_store_twice.
  do 3 f_equal. unfold added_item. by destruct (dict_get _ _).
Qed.

(** X18. Two increments of one product are one increment by the sum of
    the quantities, and an increment followed by an override is the override
    alone; the price stored is the one of the first call, the second
    product's price is not read. *)
Theorem add_twice_adds_quantities self p1 p2 q1 q2 st :
  Product.id p2 = Product.id p1 →
  ∃ st1 st2,
    add self p1 q1 false st = Ok st1 ∧
    add self p2 q2 false st1 = Ok st2 ∧
    add self p1 (q1 + q2) false st = Ok st2 ∧
    (∀ q, ∃ st3, add self p2 q true st1 = Ok st3 ∧
                 add self p1 q true st = Ok st3).
Proof.
  intros Hid. eexists _, _. split; [apply add_eq|].
  split; [apply add_eq|]. rewrite Hid.
  rewrite deref_save, deref_store_eq, dict_get_setitem_eq, dict_setitem_setitem,
    save_store_twice.
  split.
  - rewrite add_eq. do 3 f_equal. unfold added_item. f_equal.
    destruct (dict_get _ _); simpl; f_equal; first [lia | done].
  - intros q. eexists. rewrite !add_eq. rewrite Hid.
    rewrite deref_save, deref_store_eq, dict_get_setitem_eq, dict_setitem_setitem,
      save_store_twice.
    split; [done|]. do 3 f_equal. unfold added_item.
    by destruct (dict_get _ _).
Qed.

Lemma add_twice_adds_quantities_witness :
  Product.id (Examples.product 1 "9.99") = Product.id (Examples.product 1 "5.00") ∧
  ∃ st1 st2,
    add Examples.cart_AB (Examples.product 1 "5.00") 2 false Examples.state_AB = Ok st1 ∧
    add Examples.cart_AB (Examples.product 1 "9.99") 3 false st1 = Ok st2 ∧
    add Examples.cart_AB (Examples.product 1 "5.00") (2 + 3) false Examples.state_AB
      = Ok st2 ∧
    (∀ q, ∃ st3,
       add Examples.cart_AB (Examples.product 1 "9.99") q true st1 = Ok st3 ∧
       add Examples.cart_AB (Examples.product 1 "5.00") q true Examples.state_AB
         = Ok st3).
Proof.
  split; [reflexivity|].
  apply (add_twice_adds_quantities Examples.cart_AB (Examples.product 1 "5.00")
           (Examples.product 1 "9.99") 2 3 Examples.state_AB).
  reflexivity.
Defined.

(** X19. Adding two products with different ids in either order gives carts
    with the same entry under every key, the same length and the same
    session; only the order of the keys can differ. *)
Theorem add_different_products_commute self p1 p2 q1 q2 o1 o2 st :
  Product.id p1 ≠ Product.id p2 →
  ∃ st1 st12 st2 st21,
    add self p1 q1 o1 st = Ok st1 ∧ add self p2 q2 o2 st1 = Ok st12 ∧
    add self p2 q2 o2 st = Ok st2 ∧ add self p1 q1 o1 st2 = Ok st21 ∧
    (∀ k, dict_get k (deref st12 (cart self)) = dict_get k (deref st21 (cart self))) ∧
    __len__ self st12 = __len__ self st21 ∧
    session st12 = session st21.
Proof.
  intros Hid.
  assert (str (Product.id p1) ≠ str (Product.id p2)) as Hk.
  { unfold str. intros Heq. apply Hid. by apply (inj pretty). }
  eexists _, _, _, _. repeat (split; [apply add_eq|]).
  set (k1 := str (Product.id p1)) in *. set (k2 := str (Product.id p2)) in *.
  set (d := deref st (cart self)).
  rewrite !deref_save, !deref_store_eq.
  rewrite (dict_get_setitem_ne k1 k2) by done.
  rewrite (dict_get_setitem_ne k2 k1) by done.
  split; [|split; [|done]].
  - intros k. destruct (decide (k = k1)) as [->|H1]; [|destruct (decide (k = k2)) as [->|H2]].
    + rewrite (dict_get_setitem_ne k2 k1) by done.
      by rewrite !dict_get_setitem_eq.
    + rewrite (dict_get_setitem_ne k1 k2) by done.
      by rewrite !dict_get_setitem_eq.
    + by rewrite !dict_get_setitem_ne.
  - rewrite !len_total_quantity, !deref_save, !deref_store_eq.
    rewrite !total_quantity_setitem.
    rewrite (dict_get_setitem_ne k1 k2) by done.
    rewrite (dict_get_setitem_ne k2 k1) by done. lia.
Qed.

Lemma add_different_products_commute_witness :
  Product.id (Examples.product 1 "5.00") ≠ Product.id (Examples.product 3 "7.25") ∧
  ∃ st1 st12 st2 st21,
    add Examples.cart_AB (Examples.product 1 "5.00") 1 false Examples.state_AB = Ok st1 ∧
    add Examples.cart_AB (Examples.product 3 "7.25") 4 true st1 = Ok st12 ∧
    add Examples.cart_AB (Examples.product 3 "7.25") 4 true Examples.state_AB = Ok st2 ∧
    add Examples.cart_AB (Examples.product 1 "5.00") 1 false st2 = Ok st21 ∧
    (∀ k, dict_get k (deref st12 (cart Examples.cart_AB))
          = dict_get k (deref st21 (cart Examples.cart_AB))) ∧
    __len__ Examples.cart_AB st12 = __len__ Examples.cart_AB st21 ∧
    session st12 = session st21.
Proof.
  split; [discriminate|].
  apply (add_different_products_commute Examples.cart_AB (Examples.product 1 "5.00")
           (Examples.product 3 "7.25") 1 4 false true Examples.state_AB).
  discriminate.
Defined.

(** X6. Adding a product that is not in the cart and removing it again
    restores the cart's dict, the other objects and the session data; only
    [session.modified] is left set. *)
Theorem add_then_remove_restores self product quantity override_quantity st :
  dict_get (str (Product.id product)) (deref st (cart self)) = None →
  ∃ st1 st2,
    add self product quantity override_quantity st = Ok st1 ∧
    remove self product st1 = Ok st2 ∧
    deref st2 (cart self) = deref st (cart self) ∧
    (∀ l, l ≠ cart self → heap st2 !! l = heap st !! l) ∧
    data (session st2) = data (session st) ∧
    modified (session st2) = true.
Proof.
  intros Habs. eexists _, _. split; [apply add_eq|]. rewrite remove_eq.
  rewrite deref_save, deref_store_eq, dict_get_setitem_eq.
  split; [done|].
  rewrite deref_save, deref_store_eq, (dict_remove_setitem_absent _ _ _ Habs).
  repeat split. intros l Hl. simpl. by rewrite !lookup_insert_ne.
Qed.

Lemma add_then_remove_restores_witness :
  dict_get (str 3) (deref Examples.state_AB (cart Examples.cart_AB)) = None ∧
  ∃ st1 st2,
    add Examples.cart_AB (Examples.product 3 "7.25") 4 false Examples.state_AB = Ok st1 ∧
    remove Examples.cart_AB (Examples.product 3 "7.25") st1 = Ok st2 ∧
    deref st2 (cart Examples.cart_AB) = deref Examples.state_AB (cart Examples.cart_AB) ∧
    (∀ l, l ≠ cart Examples.cart_AB → heap st2 !! l = heap Examples.state_AB !! l) ∧
    data (session st2) = data (session Examples.state_AB) ∧
    modified (session st2) = true.
Proof.
  split; [vm_compute; reflexivity|].
  apply (add_then_remove_restores Examples.cart_AB (Examples.product 3 "7.25") 4 false
           Examples.state_AB).
  vm_compute; reflexivity.
Defined.

(** X7. Removing a product that is in the cart deletes exactly its key and
    keeps the other keys in their order: the dict has one entry less and
    [__len__] drops by the removed line's quantity. *)
Theorem remove_keeps_the_rest self product st item :
  dict_wf (deref st (cart self)) →
  dict_get (str (Product.id product)) (deref st (cart self)) = Some item →
  ∃ st',
    remove self product st = Ok st' ∧
    dict_keys (deref st' (cart self))
      = filter (λ k, k ≠ str (Product.id product)) (dict_keys (deref st (cart self))) ∧
    S (length (deref st' (cart self))) = length (deref st (cart self)) ∧
    __len__ self st' = __len__ self st - Item.quantity item.
Proof.
  intros Hwf Hget. eexists. split; [apply remove_eq|]. rewrite Hget.
  rewrite !len_total_quantity, deref_save, deref_store_eq.
  split; [by apply dict_keys_remove|].
  split; [by eapply dict_length_remove | by apply total_quantity_remove].
Qed.

Lemma AB_wf : dict_wf (deref Examples.state_AB (cart Examples.cart_AB)).
Proof.
  unfold dict_wf. vm_compute. apply NoDup_cons. split.
  - intros [H|H]%elem_of_cons; [discriminate H | by apply elem_of_nil in H].
  - apply NoDup_singleton.
Defined.

Lemma remove_keeps_the_rest_witness :
  dict_wf (deref Examples.state_AB (cart Examples.cart_AB)) ∧
  dict_get (str 1) (deref Examples.state_AB (cart Examples.cart_AB))
    = Some {| Item.quantity := 2; Item.price := "5.00" |} ∧
  ∃ st',
    remove Examples.cart_AB (Examples.product 1 "5.00") Examples.state_AB = Ok st' ∧
    dict_keys (deref st' (cart Examples.cart_AB))
      = filter (λ k, k ≠ str 1) (dict_keys (deref Examples.state_AB (cart Examples.cart_AB))) ∧
    S (length (deref st' (cart Examples.cart_AB)))
      = length (deref Examples.state_AB (cart Examples.cart_AB)) ∧
    __len__ Examples.cart_AB st' = __len__ Examples.cart_AB Examples.state_AB - 2.
Proof.
  split; [exact AB_wf|]. split; [vm_compute; reflexivity|].
  apply (remove_keeps_the_rest Examples.cart_AB (Examples.product 1 "5.00")
           Examples.state_AB {| Item.quantity := 2; Item.price := "5.00" |} AB_wf).
  vm_compute; reflexivity.
Defined.

(** X8. [remove] is idempotent: after one removal the product is absent, so
    a second call changes nothing. *)
Theorem remove_idempotent self product st :
  dict_wf (deref st (cart self)) →
  ∃ st', remove self product st = Ok st' ∧ remove self product st' = Ok st'.
Proof.
  intros Hwf. eexists. split; [apply remove_eq|]. rewrite remove_eq.
  destruct (dict_get _ (deref st _)) as [item|] eqn:Hget.
  - by rewrite deref_save, deref_store_eq, dict_get_remove_eq.
  - by rewrite Hget.
Qed.

Lemma remove_idempotent_witness :
  dict_wf (deref Examples.state_AB (cart Examples.cart_AB)) ∧
  ∃ st', remove Examples.cart_AB (Examples.product 1 "5.00") Examples.state_AB = Ok st' ∧
         remove Examples.cart_AB (Examples.product 1 "5.00") st' = Ok st'.
Proof.
  split; [exact AB_wf|].
  exact (remove_idempotent Examples.cart_AB (Examples.product 1 "5.00")
           Examples.state_AB AB_wf).
Defined.

(** X20. Removing a product and adding it again takes a new snapshot: the
    line holds exactly the given quantity and the text of the price the
    product has now, and it moves to the end of the cart. *)
Theorem remove_then_add_takes_new_price self p p' quantity override_quantity st :
  dict_wf (deref st (cart self)) →
  Product.id p' = Product.id p →
  ∃ st1 st2,
    remove self p st = Ok st1 ∧
    add self p' quantity override_quantity st1 = Ok st2 ∧
    dict_get (str (Product.id p)) (deref st2 (cart self))
      = Some {| Item.quantity := quantity;
                Item.price := Decimal.to_string (Product.price p') |} ∧
    dict_keys (deref st2 (cart self))
      = filter (λ k, k ≠ str (Product.id p)) (dict_keys (deref st (cart self)))
        ++ [str (Product.id p)].
Proof.
  intros Hwf Hid. eexists _, _. split; [apply remove_eq|].
  split; [apply add_eq|]. rewrite Hid.
  set (k := str (Product.id p)). set (d := deref st (cart self)) in *.
  rewrite deref_save, deref_store_eq, dict_get_setitem_eq, dict_keys_setitem.
  assert (∃ d1, deref (match dict_get k d with
                       | Some _ => save (store (cart self) (dict_remove k d) st)
                       | None => st
                       end) (cart self) = d1 ∧
                dict_get k d1 = None ∧
                dict_keys d1 = filter (λ k', k' ≠ k) (dict_keys d))
    as (d1 & -> & Hnone & Hkeys).
  { destruct (dict_get k d) as [item|] eqn:Hget.
    - eexists. split; [by rewrite deref_save, deref_store_eq|].
      split; [by apply dict_get_remove_eq | by apply dict_keys_remove].
    - exists d. split; [done|]. split; [done|].
      rewrite <- dict_keys_remove by done. by rewrite dict_remove_absent. }
  rewrite Hnone, Hkeys. done.
Qed.

Lemma remove_then_add_takes_new_price_witness :
  dict_wf (deref Examples.state_AB (cart Examples.cart_AB)) ∧
  Product.id (Examples.product 1 "9.99") = Product.id (Examples.product 1 "5.00") ∧
  ∃ st1 st2,
    remove Examples.cart_AB (Examples.product 1 "5.00") Examples.state_AB = Ok st1 ∧
    add Examples.cart_AB (Examples.product 1 "9.99") 3 false st1 = Ok st2 ∧
    dict_get (str 1) (deref st2 (cart Examples.cart_AB))
      = Some {| Item.quantity := 3;
                Item.price := Decimal.to_string (Product.price (Examples.product 1 "9.99")) |} ∧
    dict_keys (deref st2 (cart Examples.cart_AB))
      = filter (λ k, k ≠ str 1) (dict_keys (deref Examples.state_AB (cart Examples.cart_AB)))
        ++ [str 1].
Proof.
  split; [exact AB_wf|]. split; [reflexivity|].
  exact (remove_then_add_takes_new_price Examples.cart_AB (Examples.product 1 "5.00")
           (Examples.product 1 "9.99") 3 false Examples.state_AB AB_wf eq_refl).
Defined.

Lemma frame_refl CART_SESSION_ID self st : frame CART_SESSION_ID self st st.
Proof. unfold frame. repeat split; auto. Qed.

Lemma frame_trans CART_SESSION_ID self st1 st2 st3 :
  frame CART_SESSION_ID self st1 st2 → frame CART_SESSION_ID self st2 st3 →
  frame CART_SESSION_ID self st1 st3.
Proof.
  intros (A1 & B1 & C1 & D1 & E1) (A2 & B2 & C2 & D2 & E2).
  unfold frame. repeat split.
  - intros k Hk. by rewrite A2, A1.
  - intros l Hl. by rewrite B2, B1.
  - auto.
  - auto.
  - destruct E2 as [->|?]; [|by right]. done.
Qed.

Lemma frame_add CART_SESSION_ID self product quantity override_quantity st st' :
  add self product quantity override_quantity st = Ok st' →
  frame CART_SESSION_ID self st st'.
Proof.
  rewrite add_eq. intros [= <-]. unfold frame. simpl. repeat split; auto.
  intros l Hl. by rewrite lookup_insert_ne.
Qed.

Lemma frame_remove CART_SESSION_ID self product st st' :
  remove self product st = Ok st' → frame CART_SESSION_ID self st st'.
Proof.
  rewrite remove_eq. intros [= <-].
  destruct (dict_get _ _); [|apply frame_refl].
  unfold frame. simpl. repeat split; auto.
  intros l Hl. by rewrite lookup_insert_ne.
Qed.

Lemma frame_clear CART_SESSION_ID self st st' :
  clear CART_SESSION_ID self st = Ok st' → frame CART_SESSION_ID self st st'.
Proof.
  destruct (clear_effect CART_SESSION_ID self st) as (st1 & -> & Heff).
  intros [= <-]. destruct (data (session st) !! CART_SESSION_ID) eqn:Hkey.
  - destruct Heff as (Hdata & _ & Hmod & Hheap & _).
    unfold frame. rewrite Hdata, Hheap, Hmod. repeat split; auto.
    + intros k Hk. by rewrite lookup_delete_ne.
    + intros _. apply lookup_delete_eq.
  - subst st1. apply frame_refl.
Qed.

(** X9. Whatever sequence of [add], [remove] and [clear] runs on a cart, the
    session keys other than CART_SESSION_ID and the objects other than the
    cart's dict are never touched, a cart key that is absent is never
    created, and [session.modified] is never reset; it is set as soon as the
    state has changed. *)
Theorem steps_touch_only_the_cart CART_SESSION_ID self st st' :
  steps CART_SESSION_ID self st st' →
  (∀ k, k ≠ CART_SESSION_ID → data (session st') !! k = data (session st) !! k) ∧
  (∀ l, l ≠ cart self → heap st' !! l = heap st !! l) ∧
  (data (session st) !! CART_SESSION_ID = None →
   data (session st') !! CART_SESSION_ID = None) ∧
  (modified (session st) = true → modified (session st') = true) ∧
  (st' = st ∨ modified (session st') = true).
Proof.
  intros Hsteps. change (frame CART_SESSION_ID self st st').
  induction Hsteps as [st|st product quantity override_quantity st1 st2 Hadd _ IH
                       |st product st1 st2 Hrem _ IH|st st1 st2 Hclear _ IH].
  - apply frame_refl.
  - eapply frame_trans; [by eapply frame_add | done].
  - eapply frame_trans; [by eapply frame_remove | done].
  - eapply frame_trans; [by eapply frame_clear | done].
Qed.

Lemma steps_touch_only_the_cart_witness :
  steps "cart" Examples.cart_new (__init__ "cart" Examples.empty_state).2
    Examples.state_huge ∧
  (Examples.state_huge = (__init__ "cart" Examples.empty_state).2 ∨
   modified (session Examples.state_huge) = true).
Proof.
  assert (steps "cart" Examples.cart_new (__init__ "cart" Examples.empty_state).2
            Examples.state_huge) as Hs.
  { apply (steps_add "cart" _ _ Examples.product_huge 10 false Examples.state_huge);
      [vm_compute; reflexivity | apply steps_done]. }
  split; [exact Hs|].
  apply (steps_touch_only_the_cart "cart" _ _ _ Hs).
Defined.

(** [enrich] succeeds or raises as [line_total] does. *)
Lemma enrich_Some lookup k item p :
  dict_get k lookup = Some p →
  enrich lookup k item =
    Some (match Decimal.of_string (Item.price item) with
          | Some price =>
              match line_total item with
              | Ok t =>
                  Ok {| Enriched.quantity := Item.quantity item;
                        Enriched.price := price;
                        Enriched.product := p;
                        Enriched.total_price := t |}
              | Raise e => Raise e
              end
          | None => Raise InvalidOperation
          end).
Proof.
  intros Hget. unfold enrich, line_total, Decimal_new. rewrite Hget.
  destruct (Decimal.of_string (Item.price item)) as [price|]; simpl; [|done].
  by destruct (Decimal.mul price _).
Qed.

Lemma line_total_None item :
  Decimal.of_string (Item.price item) = None →
  line_total item = Raise InvalidOperation.
Proof. intros H. unfold line_total, Decimal_new. by rewrite H. Qed.

Lemma iter_items_skips lookup (items : dict Item.t) :
  (∀ kv, kv ∈ items → dict_get kv.1 lookup = None) →
  iter_items lookup items = ([], None).
Proof.
  induction items as [|[k item] items IH]; intros Hnone; [done|].
  simpl. unfold enrich.
  pose proof (Hnone (k, item) ltac:(by apply elem_of_cons; left)) as Hk.
  simpl in Hk. rewrite Hk.
  apply IH. intros kv Hkv. apply Hnone. by apply elem_of_cons; right.
Qed.

(** X10. With an empty catalogue, or more generally when no key of the cart
    is the id of a catalogue product, [__iter__] yields nothing and raises
    nothing, whatever the stored prices are: no price is converted. *)
Theorem iter_without_catalogued_items objects self st :
  __iter__ [] self st = ([], None) ∧
  ((∀ kv, kv ∈ deref st (cart self) → ¬ in_catalog objects kv.1) →
   __iter__ objects self st = ([], None)).
Proof.
  split.
  - unfold __iter__. apply iter_items_skips. by intros kv _.
  - intros Hnone. unfold __iter__. apply iter_items_skips.
    intros [k item] Hkv. apply eq_None_not_Some.
    intros Hsome. apply (Hnone (k, item) Hkv). simpl.
    apply (product_lookup_is_Some objects (dict_keys (deref st (cart self)))); [|done].
    unfold dict_keys. apply list_elem_of_fmap. by exists (k, item).
Qed.

Lemma iter_without_catalogued_items_witness :
  (∀ kv, kv ∈ deref Examples.state_malformed (cart Examples.cart_AB) →
         ¬ in_catalog [Examples.product 2 "3.75"] kv.1) ∧
  __iter__ [Examples.product 2 "3.75"] Examples.cart_AB Examples.state_malformed
    = ([], None).
Proof.
  assert (∀ kv, kv ∈ deref Examples.state_malformed (cart Examples.cart_AB) →
                ¬ in_catalog [Examples.product 2 "3.75"] kv.1) as Hnone.
  { intros kv Hkv.
    change (deref Examples.state_malformed (cart Examples.cart_AB))
      with [("1", {| Item.quantity := 1; Item.price := "abc" |})] in Hkv.
    apply list_elem_of_singleton in Hkv as ->. simpl.
    intros [Hh|Ht]%Exists_cons; [discriminate Hh | by apply Exists_nil in Ht]. }
  split; [exact Hnone|].
  exact (proj2 (iter_without_catalogued_items [Examples.product 2 "3.75"]
                  Examples.cart_AB Examples.state_malformed) Hnone).
Defined.

(** The generator's loop in general: the records yielded are those of the
    first catalogued line items, and an exception is the one of the next. *)
Lemma iter_items_prefix objects lookup (items : dict Item.t) :
  (∀ k p, dict_get k lookup = Some p → p ∈ objects ∧ str (Product.id p) = k) →
  (∀ kv, kv ∈ items → is_Some (dict_get kv.1 lookup) ↔ in_catalog objects kv.1) →
  let xs := (iter_items lookup items).1 in
  let catalogued := filter (λ kv, in_catalog objects kv.1) items in
  Forall2 (enriches objects) (take (length xs) catalogued) xs ∧
  match (iter_items lookup items).2 with
  | None => length xs = length catalogued
  | Some e =>
      ∃ kv, catalogued !! length xs = Some kv ∧ line_total kv.2 = Raise e
  end.
Proof.
  intros Hlookup. induction items as [|[k item] items IH]; intros Hcat.
  - simpl. split; [constructor | done].
  - destruct IH as [IH1 IH2].
    { intros kv Hkv. apply Hcat. by apply elem_of_cons; right. }
    pose proof (Hcat (k, item) ltac:(by apply elem_of_cons; left)) as Hk.
    simpl in Hk. cbn [iter_items].
    destruct (dict_get k lookup) as [p|] eqn:Hget.
    + assert (in_catalog objects k) as Hin by (apply Hk; by eexists).
      rewrite (enrich_Some _ _ _ _ Hget).
      rewrite filter_cons_True by done.
      destruct (Decimal.of_string (Item.price item)) as [price|] eqn:Hprice.
      * destruct (line_total item) as [t|e] eqn:Ht.
        -- destruct (iter_items lookup items) as [xs e'] eqn:Hiter.
           simpl in *. split; [|destruct e'; [done | by rewrite IH2]].
           constructor; [|done].
           destruct (Hlookup k p Hget) as [Hp Hid].
           unfold line_total, Decimal_new in Ht. rewrite Hprice in Ht.
           repeat split; simpl; done.
        -- simpl. split; [constructor|]. by exists (k, item).
      * simpl. split; [constructor|]. exists (k, item). split; [done|].
        by apply line_total_None.
    + assert (¬ in_catalog objects k) as Hnin.
      { intros Hin%Hk. by destruct Hin. }
      unfold enrich. rewrite Hget.
      rewrite filter_cons_False by done. done.
Qed.

(** X11. What [__iter__] yields is always a correct prefix of the catalogued
    lines in cart order, each enriched with its product, decimal price and
    line total. It stops early only by raising, and then the exception is the
    one raised by the price conversion or the multiplication of the first
    line that was not yielded. *)
Theorem iter_yields_a_correct_prefix objects self st :
  let xs := (__iter__ objects self st).1 in
  let catalogued :=
    filter (λ kv, in_catalog objects kv.1) (deref st (cart self)) in
  Forall2 (enriches objects) (take (length xs) catalogued) xs ∧
  match (__iter__ objects self st).2 with
  | None => length xs = length catalogued
  | Some e =>
      ∃ kv, catalogued !! length xs = Some kv ∧ line_total kv.2 = Raise e
  end.
Proof.
  unfold __iter__. apply iter_items_prefix.
  - intros k p. apply product_lookup_Some.
  - intros [k item] Hkv. apply product_lookup_is_Some.
    unfold dict_keys. apply list_elem_of_fmap. by exists (k, item).
Qed.

Lemma sum_line_totals_Ok items : ∀ acc r,
  sum_line_totals acc items = Ok r →
  ∀ item, item ∈ items → ∃ t, line_total item = Ok t.
Proof.
  induction items as [|i items IH]; intros acc r Hsum item Hin.
  - by apply elem_of_nil in Hin.
  - simpl in Hsum. destruct (line_total i) as [x|e] eqn:Hx; [|done].
    simpl in Hsum. destruct (number_add acc x) as [y|e] eqn:Hy; [|done].
    simpl in Hsum. apply elem_of_cons in Hin as [->|Hin]; [by exists x|].
    by eapply IH.
Qed.

(** X12. If [get_total_price] returns, then [__iter__] yields every
    catalogued line and raises nothing, for any catalogue: both compute the
    same line totals, and iteration computes them for a subset of the lines. *)
Theorem total_price_ok_iter_ok objects self st r :
  get_total_price self st = Ok r →
  ∃ xs,
    __iter__ objects self st = (xs, None) ∧
    Forall2 (enriches objects)
      (filter (λ kv, in_catalog objects kv.1) (deref st (cart self))) xs.
Proof.
  intros Hr. apply iter_complete. intros [k item] Hkv _.
  apply (sum_line_totals_Ok _ _ _ Hr).
  unfold dict_values. apply list_elem_of_fmap. by exists (k, item).
Qed.

Lemma total_price_ok_iter_ok_witness :
  get_total_price Examples.cart_AB Examples.state_AB
    = Ok (PyDecimal (Decimal.Finite false 1350 (-2))) ∧
  ∃ xs,
    __iter__ [Examples.product 2 "3.75"] Examples.cart_AB Examples.state_AB
      = (xs, None) ∧
    Forall2 (enriches [Examples.product 2 "3.75"])
      (filter (λ kv, in_catalog [Examples.product 2 "3.75"] kv.1)
         (deref Examples.state_AB (cart Examples.cart_AB))) xs.
Proof.
  split; [vm_compute; reflexivity|].
  apply (total_price_ok_iter_ok [Examples.product 2 "3.75"] Examples.cart_AB
           Examples.state_AB (PyDecimal (Decimal.Finite false 1350 (-2)))).
  vm_compute; reflexivity.
Defined.

Lemma dict_setitem_absent {V} k (v : V) d :
  dict_get k d = None → dict_setitem k v d = d ++ [(k, v)].
Proof.
  induction d as [|[k0 v0] d IH]; simpl; [done|].
  destruct (decide (k = k0)) as [->|Hne]; [done|]. intros H. by rewrite IH.
Qed.

Lemma dict_values_setitem_Forall {V} (P : V → Prop) k v (d : dict V) :
  Forall P (dict_values d) → P v → Forall P (dict_values (dict_setitem k v d)).
Proof.
  unfold dict_values. intros Hd Hv. induction d as [|[k0 v0] d IH]; csimpl.
  - by constructor.
  - csimpl in Hd. apply Forall_cons in Hd as [H0 Hd].
    destruct (decide (k = k0)) as [->|Hne]; csimpl.
    + by constructor.
    + constructor; [done | by apply IH].
Qed.

Lemma dict_values_remove_Forall {V} (P : V → Prop) k (d : dict V) :
  Forall P (dict_values d) → Forall P (dict_values (dict_remove k d)).
Proof.
  unfold dict_values. intros Hd. induction d as [|[k0 v0] d IH]; csimpl; [done|].
  csimpl in Hd. apply Forall_cons in Hd as [H0 Hd].
  destruct (decide (k = k0)) as [->|Hne]; csimpl; [done|].
  constructor; [done | by apply IH].
Qed.

Lemma dict_get_values_Forall {V} (P : V → Prop) k v (d : dict V) :
  Forall P (dict_values d) → dict_get k d = Some v → P v.
Proof.
  unfold dict_values. intros Hd Hget. apply dict_get_elem in Hget.
  rewrite Forall_forall in Hd. apply Hd. apply list_elem_of_fmap. by exists (k, v).
Qed.

(** X14. The price snapshot survives the conversion to text: after adding a
    product that was not in the cart, [Decimal(item['price'])] is the product's
    price again, for every decimal within the limits of the implementation
    (finite, infinite or NaN). *)
Theorem add_snapshot_reads_back self product quantity override_quantity st :
  dict_get (str (Product.id product)) (deref st (cart self)) = None →
  Decimal.in_limits (Product.price product) = true →
  ∃ st' item,
    add self product quantity override_quantity st = Ok st' ∧
    dict_get (str (Product.id product)) (deref st' (cart self)) = Some item ∧
    Item.quantity item = quantity ∧
    Decimal.of_string (Item.price item) = Some (Product.price product).
Proof.
  intros Habs Hlim. eexists _, _. split; [apply add_eq|].
  rewrite deref_save, deref_store_eq, dict_get_setitem_eq, Habs.
  split; [done|]. split; [done|]. by apply RoundTrip.of_string_to_string.
Qed.

Lemma add_snapshot_reads_back_witness :
  dict_get (str 3) (deref Examples.state_AB (cart Examples.cart_AB)) = None ∧
  Decimal.in_limits (Product.price (Examples.product 3 "7.25")) = true ∧
  ∃ st' item,
    add Examples.cart_AB (Examples.product 3 "7.25") 4 false Examples.state_AB = Ok st' ∧
    dict_get (str 3) (deref st' (cart Examples.cart_AB)) = Some item ∧
    Item.quantity item = 4 ∧
    Decimal.of_string (Item.price item) = Some (Decimal.Finite false 725 (-2)).
Proof.
  split; [vm_compute; reflexivity|]. split; [vm_compute; reflexivity|].
  apply (add_snapshot_reads_back Examples.cart_AB (Examples.product 3 "7.25") 4 false
           Examples.state_AB); vm_compute; reflexivity.
Defined.

(** X15. In every state reached from an empty session by [__init__], [add],
    [remove] and [clear], each stored price is the text [str(d)] of a decimal
    [d], and [Decimal(item['price'])] gives [d] back when [d] is within the
    limits of the implementation. *)
Theorem reachable_prices_are_decimals CART_SESSION_ID self st :
  reachable CART_SESSION_ID self st →
  Forall price_is_decimal (dict_values (deref st (cart self))).
Proof.
  induction 1 as [|self st product quantity override_quantity st' _ IH Hadd
                  |self st product st' _ IH Hrem
                  |self st st' _ IH Hclear].
  - unfold __init__, _get_or_create_cart, session_get. simpl.
    rewrite lookup_empty. simpl. unfold deref. simpl.
    rewrite lookup_insert_eq. constructor.
  - rewrite add_eq in Hadd. injection Hadd as <-.
    rewrite deref_save, deref_store_eq.
    apply dict_values_setitem_Forall; [done|].
    destruct (dict_get _ _) as [item|] eqn:Hget; simpl.
    + destruct (dict_get_values_Forall _ _ _ _ IH Hget) as (d & Hd1 & Hd2).
      by exists d.
    + exists (Product.price product). split; [done|].
      apply RoundTrip.of_string_to_string.
  - rewrite remove_eq in Hrem. injection Hrem as <-.
    destruct (dict_get _ _); [|done].
    rewrite deref_save, deref_store_eq. by apply dict_values_remove_Forall.
  - destruct (clear_effect CART_SESSION_ID self st) as (st1 & Hst1 & Heff).
    rewrite Hst1 in Hclear. injection Hclear as <-.
    destruct (data (session st) !! CART_SESSION_ID).
    + destruct Heff as (_ & _ & _ & _ & ->). done.
    + by subst st1.
Qed.

Lemma reachable_prices_are_decimals_witness :
  reachable "cart" Examples.cart_new Examples.state_huge ∧
  Forall price_is_decimal
    (dict_values (deref Examples.state_huge (cart Examples.cart_new))).
Proof.
  assert (reachable "cart" Examples.cart_new Examples.state_huge) as Hr.
  { apply (reachable_add "cart" _ (__init__ "cart" Examples.empty_state).2
             Examples.product_huge 10 false); [apply reachable_init|].
    vm_compute. reflexivity. }
  split; [exact Hr|].
  exact (reachable_prices_are_decimals "cart" _ _ Hr).
Defined.

(** Every record the loop yields is the record of a line item. *)
Lemma iter_items_elem objects lookup (items : dict Item.t) x :
  (∀ k p, dict_get k lookup = Some p → p ∈ objects ∧ str (Product.id p) = k) →
  x ∈ (iter_items lookup items).1 →
  ∃ kv, kv ∈ items ∧ enriches objects kv x.
Proof.
  intros Hlookup. induction items as [|[k item] items IH]; simpl.
  - by intros ?%elem_of_nil.
  - destruct (dict_get k lookup) as [p|] eqn:Hget.
    + rewrite (enrich_Some _ _ _ _ Hget).
      destruct (Decimal.of_string (Item.price item)) as [price|] eqn:Hprice;
        [|by intros ?%elem_of_nil].
      destruct (line_total item) as [t|e] eqn:Ht; [|by intros ?%elem_of_nil].
      destruct (iter_items lookup items) as [xs e']. simpl in *.
      intros [->|Hin]%elem_of_cons.
      * exists (k, item). split; [by apply elem_of_cons; left|].
        destruct (Hlookup k p Hget) as [Hp Hid].
        unfold line_total, Decimal_new in Ht. rewrite Hprice in Ht.
        repeat split; simpl; done.
      * destruct (IH Hin) as (kv & Hkv & Henr).
        exists kv. split; [by apply elem_of_cons; right | done].
    + unfold enrich. rewrite Hget. intros Hin.
      destruct (IH Hin) as (kv & Hkv & Henr).
      exists kv. split; [by apply elem_of_cons; right | done].
Qed.

(** X16. After adding a product that was not in the cart, the line that
    [__iter__] yields for its key carries the product's price and the given
    quantity, a product of the catalogue, and as [total_price] the result of
    the decimal multiplication of the two. *)
Theorem iter_shows_snapshot_price objects self product quantity override_quantity
    st x :
  dict_wf (deref st (cart self)) →
  dict_get (str (Product.id product)) (deref st (cart self)) = None →
  ∃ st',
    add self product quantity override_quantity st = Ok st' ∧
    (x ∈ (__iter__ objects self st').1 →
     str (Product.id (Enriched.product x)) = str (Product.id product) →
     Enriched.price x = Product.price product ∧
     Enriched.quantity x = quantity ∧
     Enriched.product x ∈ objects ∧
     Decimal.mul (Product.price product) (Decimal.of_int quantity)
       = Ok (Enriched.total_price x)).
Proof.
  intros Hwf Habs. eexists. split; [apply add_eq|].
  rewrite Habs. simpl. set (st' := save _).
  intros Hx Hid. unfold __iter__ in Hx.
  destruct (iter_items_elem objects _ _ x
              (λ k p, product_lookup_Some objects _ k p) Hx)
    as ([k item] & Hkv & Hq & Hprice & Hmul & Hp & Hk).
  simpl in *. rewrite Hid in Hk. subst k.
  assert (dict_get (str (Product.id product)) (deref st' (cart self)) = Some item)
    as Hget.
  { apply dict_get_elem_wf; [|done]. subst st'.
    rewrite deref_save, deref_store_eq. by apply dict_wf_setitem. }
  subst st'. rewrite deref_save, deref_store_eq, dict_get_setitem_eq in Hget.
  injection Hget as <-. simpl in *.
  apply RoundTrip.of_string_to_string_inv in Hprice.
  rewrite Hprice in Hmul |- *. done.
Qed.

Lemma iter_shows_snapshot_price_witness :
  let x := {| Enriched.quantity := 4;
              Enriched.price := Decimal.Finite false 725 (-2);
              Enriched.product := Examples.product 3 "8.00";
              Enriched.total_price := Decimal.Finite false 2900 (-2) |} in
  dict_wf (deref Examples.state_AB (cart Examples.cart_AB)) ∧
  dict_get (str 3) (deref Examples.state_AB (cart Examples.cart_AB)) = None ∧
  ∃ st',
    add Examples.cart_AB (Examples.product 3 "7.25") 4 false Examples.state_AB = Ok st' ∧
    x ∈ (__iter__ [Examples.product 3 "8.00"] Examples.cart_AB st').1 ∧
    Enriched.price x = Product.price (Examples.product 3 "7.25").
Proof.
  intros x. split; [exact AB_wf|]. split; [vm_compute; reflexivity|].
  destruct (iter_shows_snapshot_price [Examples.product 3 "8.00"] Examples.cart_AB
              (Examples.product 3 "7.25") 4 false Examples.state_AB x AB_wf)
    as (st' & Hadd & Hx); [vm_compute; reflexivity|].
  exists st'. split; [exact Hadd|].
  assert (x ∈ (__iter__ [Examples.product 3 "8.00"] Examples.cart_AB st').1) as Hin.
  { rewrite add_eq in Hadd. injection Hadd as <-.
    vm_compute. apply elem_of_cons. by left. }
  split; [exact Hin|]. apply Hx; [exact Hin | reflexivity].
Defined.

Lemma fits_bounds m items :
  fits_context m items = true →
  Decimal.Etiny ≤ m ∧ m ≤ 0 ∧ forallb (price_fits m) items = true ∧
  foldr (λ item acc, abs_units m item + acc) 0 items < 10 ^ 28.
Proof.
  unfold fits_context. rewrite !andb_true_iff.
  by intros [[[Hm1%Z.leb_le Hm2%Z.leb_le] Hfit] Hb%Z.ltb_lt].
Qed.

Lemma fits_item m items item :
  fits_context m items = true → item ∈ items →
  price_fits m item = true ∧ abs_units m item < 10 ^ 28.
Proof.
  intros (Hm1 & Hm2 & Hfit & Hb)%fits_bounds Hin.
  induction items as [|i items IH]; [by apply elem_of_nil in Hin|].
  simpl in Hfit, Hb. apply andb_true_iff in Hfit as [Hfit Hfits].
  pose proof (abs_units_nonneg m i). pose proof (sum_abs_units_nonneg m items).
  apply elem_of_cons in Hin as [->|Hin].
  - split; [done | lia].
  - apply IH; [done | lia | done].
Qed.

Lemma sum_abs_units_acc m items a :
  foldr (λ item acc, abs_units m item + acc) a items
  = foldr (λ item acc, abs_units m item + acc) 0 items + a.
Proof. induction items as [|i items IH]; simpl; [done|]. rewrite IH. lia. Qed.

Lemma fits_prefix m items items' :
  fits_context m (items ++ items') = true → fits_context m items = true.
Proof.
  intros (Hm1 & Hm2 & Hfit & Hb)%fits_bounds.
  unfold fits_context. rewrite !andb_true_iff.
  rewrite forallb_app in Hfit. apply andb_true_iff in Hfit as [Hfit _].
  rewrite foldr_app, sum_abs_units_acc in Hb.
  pose proof (sum_abs_units_nonneg m items').
  repeat split; try (apply Z.leb_le; lia); [done|].
  apply Z.ltb_lt. lia.
Qed.

Section exact_more.
Import Decimal DecimalFacts.
Local Open Scope Q_scope.

(** Under [fits_context] the total is the exact sum. *)
Lemma total_exact m items :
  fits_context m items = true →
  ∃ r, sum_line_totals (PyInt 0) items = Ok r ∧
       number_is_finite r = true ∧ number_Q r == exact_total items.
Proof.
  intros Hfit. destruct (sum_from_zero_repr m _ Hfit) as (r & Hr & Hrepr).
  exists r. split; [done|].
  destruct (fits_bounds _ _ Hfit) as (_ & _ & Hfits & _).
  destruct r as [n|d].
  - destruct Hrepr as [-> ->]. split; [done|]. reflexivity.
  - split.
    + by destruct Hrepr as (s & c & e & -> & _).
    + simpl. rewrite (repr_to_Q m _ d Hrepr).
      by rewrite (exact_total_units m _ Hfits).
Qed.

Lemma exact_total_snoc items item :
  exact_total (items ++ [item])
  == exact_total items + price_Q item * inject_Z (Item.quantity item).
Proof.
  unfold exact_total. induction items as [|i items IH]; simpl.
  - ring.
  - rewrite IH. ring.
Qed.

(** A line total computed within the context is exact. *)
Lemma line_total_exact m item price t :
  (Etiny ≤ m)%Z → (m ≤ 0)%Z → price_fits m item = true →
  (abs_units m item < 10 ^ 28)%Z →
  of_string (Item.price item) = Some price →
  mul price (of_int (Item.quantity item)) = Ok t →
  is_finite t = true ∧
  to_Q t == to_Q price * inject_Z (Item.quantity item) ∧
  to_Q t == price_Q item * inject_Z (Item.quantity item).
Proof.
  intros Hm1 Hm2 Hfit Hb Hprice Hmul.
  unfold price_fits, abs_units, price_Q in *. rewrite Hprice in *.
  destruct price as [s c e| |]; try done. apply Z.leb_le in Hfit.
  destruct (mul_repr m s c e (Item.quantity item) Hm1 Hm2 Hfit) as (d & Hd & Hrepr).
  { rewrite Z.abs_mul, units_abs. done. }
  rewrite Hd in Hmul. injection Hmul as <-.
  assert (to_Q d == to_Q (Finite s c e) * inject_Z (Item.quantity item)) as Heq.
  { rewrite (repr_to_Q m _ d Hrepr).
    rewrite (repr_to_Q m (units m s c e) (Finite s c e)) by (by eexists _, _, _).
    rewrite inject_Z_mult. ring. }
  split; [by destruct Hrepr as (? & ? & ? & -> & _)|]. by split.
Qed.
End exact_more.

Section totals.
Import DecimalFacts.
Local Open Scope Q_scope.

Lemma enriched_exact m objects items (cat : dict Item.t) xs :
  fits_context m items = true →
  (∀ kv, kv ∈ cat → kv.2 ∈ items) →
  Forall2 (enriches objects) cat xs →
  Forall (λ x, Decimal.is_finite (Enriched.total_price x) = true ∧
               Decimal.to_Q (Enriched.total_price x)
               == Decimal.to_Q (Enriched.price x) * inject_Z (Enriched.quantity x)) xs ∧
  foldr (λ x acc, Decimal.to_Q (Enriched.total_price x) + acc) 0 xs
  == exact_total (dict_values cat).
Proof.
  intros Hfit Hsub Hall.
  destruct (fits_bounds _ _ Hfit) as (Hm1 & Hm2 & _ & _).
  induction Hall as [|[k item] x cat xs Henr _ IH].
  - split; [constructor | reflexivity].
  - destruct IH as [IH1 IH2].
    { intros kv Hkv. apply Hsub. by apply elem_of_cons; right. }
    destruct Henr as (Hq & Hprice & Hmul & _). simpl in *.
    destruct (fits_item m items item Hfit) as [Hpf Hb].
    { apply (Hsub (k, item)). by apply elem_of_cons; left. }
    destruct (line_total_exact m item _ _ Hm1 Hm2 Hpf Hb Hprice Hmul)
      as (Hfin & Hex1 & Hex2).
    split.
    + constructor; [|done]. split; [done|]. by rewrite Hq.
    + unfold dict_values. csimpl. rewrite IH2, Hex2. reflexivity.
Qed.

(** X13. When the cart fits the decimal context, iteration and
    [get_total_price] both succeed, every yielded [total_price] is exactly
    price times quantity, and if every line is catalogued the yielded line
    totals add up exactly to the total price. *)
Theorem line_totals_add_up m objects self st :
  fits_context m (dict_values (deref st (cart self))) = true →
  ∃ xs r,
    __iter__ objects self st = (xs, None) ∧
    get_total_price self st = Ok r ∧
    Forall (λ x, Decimal.is_finite (Enriched.total_price x) = true ∧
                 Decimal.to_Q (Enriched.total_price x)
                 == Decimal.to_Q (Enriched.price x) * inject_Z (Enriched.quantity x)) xs ∧
    ((∀ kv, kv ∈ deref st (cart self) → in_catalog objects kv.1) →
     foldr (λ x acc, Decimal.to_Q (Enriched.total_price x) + acc) 0 xs == number_Q r).
Proof.
  intros Hfit.
  destruct (iter_complete objects self st) as (xs & Hxs & Hall).
  { intros [k item] Hkv _. apply (fits_line_total m _ item Hfit).
    unfold dict_values. apply list_elem_of_fmap. by exists (k, item). }
  destruct (total_exact m _ Hfit) as (r & Hr & _ & Hrq).
  exists xs, r. split; [done|]. split; [done|].
  assert (∀ kv, kv ∈ filter (λ kv, in_catalog objects kv.1) (deref st (cart self)) →
               kv.2 ∈ dict_values (deref st (cart self))) as Hsub.
  { intros [k item] [_ Hkv]%list_elem_of_filter.
    unfold dict_values. apply list_elem_of_fmap. by exists (k, item). }
  destruct (enriched_exact m objects _ _ xs Hfit Hsub Hall) as [H1 H2].
  split; [done|]. intros Hcat. rewrite H2, Hrq.
  rewrite filter_Forall_id; [reflexivity|]. by apply Forall_forall.
Qed.

Lemma line_totals_add_up_witness :
  fits_context (-2) (dict_values (deref Examples.state_AB (cart Examples.cart_AB)))
    = true ∧
  ∃ xs r,
    __iter__ [Examples.product 1 "5.25"; Examples.product 2 "3.75"]
      Examples.cart_AB Examples.state_AB = (xs, None) ∧
    get_total_price Examples.cart_AB Examples.state_AB = Ok r ∧
    Forall (λ x, Decimal.is_finite (Enriched.total_price x) = true ∧
                 Decimal.to_Q (Enriched.total_price x)
                 == Decimal.to_Q (Enriched.price x) * inject_Z (Enriched.quantity x)) xs ∧
    ((∀ kv, kv ∈ deref Examples.state_AB (cart Examples.cart_AB) →
            in_catalog [Examples.product 1 "5.25"; Examples.product 2 "3.75"] kv.1) →
     foldr (λ x acc, Decimal.to_Q (Enriched.total_price x) + acc) 0 xs == number_Q r).
Proof.
  split; [vm_compute; reflexivity|].
  apply (line_totals_add_up (-2) [Examples.product 1 "5.25"; Examples.product 2 "3.75"]
           Examples.cart_AB Examples.state_AB).
  vm_compute; reflexivity.
Defined.

(** X21. Adding a product that was not in the cart raises the total price
    by exactly price times quantity, provided the resulting cart fits the
    decimal context (the cart before the call then fits as well). *)
Theorem add_raises_total_by_line m self product quantity override_quantity st :
  dict_get (str (Product.id product)) (deref st (cart self)) = None →
  ∃ st',
    add self product quantity override_quantity st = Ok st' ∧
    (fits_context m (dict_values (deref st' (cart self))) = true →
     ∃ r r',
       get_total_price self st = Ok r ∧
       get_total_price self st' = Ok r' ∧
       number_Q r' == number_Q r + Decimal.to_Q (Product.price product) * inject_Z quantity).
Proof.
  intros Habs. eexists. split; [apply add_eq|].
  rewrite deref_save, deref_store_eq, Habs. simpl.
  rewrite (dict_setitem_absent _ _ _ Habs).
  unfold dict_values. rewrite fmap_app. csimpl. intros Hfit.
  destruct (total_exact m _ (fits_prefix _ _ _ Hfit)) as (r & Hr & _ & Hrq).
  destruct (total_exact m _ Hfit) as (r' & Hr' & _ & Hrq').
  exists r, r'. unfold get_total_price, dict_values.
  rewrite deref_save, deref_store_eq, fmap_app.
  split; [done|]. split; [done|].
  rewrite Hrq', Hrq, exact_total_snoc. unfold price_Q. simpl.
  destruct (fits_item m _ {| Item.quantity := quantity;
                             Item.price := Decimal.to_string (Product.price product) |}
              Hfit) as [Hprice _].
  { apply elem_of_app. right. by apply list_elem_of_singleton. }
  unfold price_fits in Hprice. simpl in Hprice.
  rewrite RoundTrip.of_string_to_string_exact in Hprice |- *.
  unfold Decimal.exact in *. by destruct (Decimal.in_limits _).
Qed.

Lemma add_raises_total_by_line_witness :
  dict_get (str 3) (deref Examples.state_AB (cart Examples.cart_AB)) = None ∧
  ∃ st',
    add Examples.cart_AB (Examples.product 3 "7.25") 4 false Examples.state_AB = Ok st' ∧
    fits_context (-2) (dict_values (deref st' (cart Examples.cart_AB))) = true ∧
    ∃ r r',
      get_total_price Examples.cart_AB Examples.state_AB = Ok r ∧
      get_total_price Examples.cart_AB st' = Ok r' ∧
      number_Q r' == number_Q r
                     + Decimal.to_Q (Product.price (Examples.product 3 "7.25")) * inject_Z 4.
Proof.
  split; [vm_compute; reflexivity|].
  destruct (add_raises_total_by_line (-2) Examples.cart_AB (Examples.product 3 "7.25")
              4 false Examples.state_AB) as (st' & Hadd & Htotal);
    [vm_compute; reflexivity|].
  exists st'. split; [exact Hadd|].
  assert (fits_context (-2) (dict_values (deref st' (cart Examples.cart_AB))) = true)
    as Hfit.
  { rewrite add_eq in Hadd. injection Hadd as <-. vm_compute. reflexivity. }
  split; [exact Hfit|]. exact (Htotal Hfit).
Defined.
End totals.
